(** * Scotopia backend: deposit verification, tiering and minting

    A shallow embedding of the TypeScript services of the repository
    (src/services/privacy.ts, src/services/verifier.ts,
    src/services/minter.ts, src/db/schema.ts and the deposit handler of
    src/index.ts) together with the properties stated about them.

    Conventions of the embedding:
    - a JavaScript [number] that carries an amount is an exact rational
      ([Q]); [==] on [Q] plays the role of [===] on numbers.  Only finite
      values are modelled (no NaN, no infinities);
    - a [number] that carries a time (milliseconds since the epoch, the
      value of [Date.now()]) is an integer ([Z]);
    - every [Date.now()] read inside one synchronous call denotes the same
      instant, passed to the function as [now];
    - the process-wide [Map] of the verifier, the SQLite tables and the
      socket broadcasts are explicit state, threaded through each call. *)

From Stdlib Require Import QArith Lqa ZArith Lia Sorted Ascii String.
From stdpp Require Import gmap strings list fin_maps pretty.

(** ** src/services/privacy.ts *)

Module Privacy.

(** [interface PrivacyTier] of config/loadConfig.ts. *)
Record PrivacyTier := { name : string; threshold : Q }.

Record TierAssignment :=
  { tier : string; amount : Q; originalAmount : Q }.

(** [Array.prototype.sort(compareFn)].  ECMAScript fixes the outcome for
    a consistent comparator: the elements in [compareFn] order, elements
    that compare equal in their original order (the sort is stable).
    That list is computed here by a stable insertion: [x] moves past the
    elements it has to come after ([compareFn x h > 0]) and stops in
    front of the first one it ties with or precedes. *)
Section Array_sort.
Context {A : Type} (compareFn : A -> A -> Q).

Fixpoint sort_insert (x : A) (l : list A) : list A :=
  match l with
  | [] => [x]
  | h :: r =>
      if Qlt_le_dec 0 (compareFn x h)
      then h :: sort_insert x r
      else x :: h :: r
  end.

Fixpoint Array_sort (l : list A) : list A :=
  match l with
  | [] => []
  | x :: r => sort_insert x (Array_sort r)
  end.
End Array_sort.

(** The [for (const tier of sortedTiers)] loop with its early return. *)
Fixpoint for_of (amount : Q) (sortedTiers : list PrivacyTier)
  : option TierAssignment :=
  match sortedTiers with
  | [] => None
  | t :: rest =>
      if Qle_bool (threshold t) amount
      then Some {| tier := name t;
                   amount := threshold t;
                   originalAmount := amount |}
      else for_of amount rest
  end.

(** The comparator [(a, b) => b.threshold - a.threshold]. *)
Definition byThreshold (a b : PrivacyTier) : Q :=
  (threshold b - threshold a)%Q.

Definition getPrivacyTier (amount : Q) (tiers : list PrivacyTier)
  : TierAssignment :=
  let sortedTiers := Array_sort byThreshold tiers in
  match for_of amount sortedTiers with
  | Some r => r
  | None => {| tier := "No Tier"; amount := 0; originalAmount := amount |}
  end.

Definition anonymizeAmount (amount : Q) (tiers : list PrivacyTier) : Q :=
  Privacy.amount (getPrivacyTier amount tiers).

(** No two tiers of the table have equal thresholds. *)
Fixpoint distinct_thresholds (tiers : list PrivacyTier) : bool :=
  match tiers with
  | [] => true
  | t :: rest =>
      forallb (fun u => negb (Qeq_bool (threshold t) (threshold u))) rest
      && distinct_thresholds rest
  end.

(** [a] may stand in front of [b] in a table sorted by descending
    threshold. *)
Definition desc (a b : PrivacyTier) : Prop :=
  (threshold b <= threshold a)%Q.

(** The tier [getPrivacyTier] settles on, if any. *)
Definition winner (amount : Q) (tiers : list PrivacyTier)
  : option PrivacyTier :=
  List.find (fun t => Qle_bool (threshold t) amount)
    (Array_sort byThreshold tiers).

End Privacy.

(** ** src/db/schema.ts *)

(** [interface Deposit]; also a row of the [deposits] table.  [created_at]
    is kept as the instant it denotes. *)
Module Deposit.
Record t :=
  { id : string; txid : string; wallet : string; amount : Q;
    token : string; timestamp : Z; processed : bool; created_at : Z }.

Definition set_processed (d : t) : t :=
  {| id := id d; txid := txid d; wallet := wallet d; amount := amount d;
     token := token d; timestamp := timestamp d; processed := true;
     created_at := created_at d |}.
End Deposit.

(** The object handed to [JSON.stringify] for the [metadata] column. *)
Module Metadata.
Record t :=
  { depositId : string; tier : string; timestamp : Z;
    metadataUri : option string }.
End Metadata.

(** [interface Attestation]; a row of the [attestations] table. *)
Module Attestation.
Record t :=
  { id : string; deposit_id : string; wallet : string; tier : string;
    token_id : option string; minted_at : Z; metadata : Metadata.t }.
End Attestation.

(** A thrown JavaScript value: an [Error] with its [message], or anything
    else. *)
Inductive thrown := JsError (message : string) | NotAnError.

Inductive outcome (A : Type) :=
| Return (a : A)
| Throw (e : thrown).
Arguments Return {A} a.
Arguments Throw {A} e.

(** The two tables created by [initializeDatabase], with the constraints
    the statements of the services can violate: the primary keys, and the
    foreign key of [attestations.deposit_id] when the connection enforces
    foreign keys. *)
Module Db.
Record t :=
  { foreign_keys : bool;
    deposits : list Deposit.t;
    attestations : list Attestation.t }.

Definition has_deposit (i : string) (d : t) : bool :=
  existsb (fun r => String.eqb (Deposit.id r) i) (deposits d).

Definition has_attestation (i : string) (d : t) : bool :=
  existsb (fun r => String.eqb (Attestation.id r) i) (attestations d).

(** [INSERT INTO deposits (...) VALUES (...)] *)
Definition insert_deposit (r : Deposit.t) (d : t) : outcome t :=
  if has_deposit (Deposit.id r) d
  then Throw (JsError "UNIQUE constraint failed: deposits.id")
  else Return {| foreign_keys := foreign_keys d;
                 deposits := deposits d ++ [r];
                 attestations := attestations d |}.

(** [INSERT INTO attestations (...) VALUES (...)] *)
Definition insert_attestation (r : Attestation.t) (d : t) : outcome t :=
  if has_attestation (Attestation.id r) d
  then Throw (JsError "UNIQUE constraint failed: attestations.id")
  else if foreign_keys d && negb (has_deposit (Attestation.deposit_id r) d)
  then Throw (JsError "FOREIGN KEY constraint failed")
  else Return {| foreign_keys := foreign_keys d;
                 deposits := deposits d;
                 attestations := attestations d ++ [r] |}.

(** [UPDATE deposits SET processed = 1 WHERE id = ?] *)
Definition mark_processed (i : string) (d : t) : t :=
  {| foreign_keys := foreign_keys d;
     deposits :=
       map (fun r => if String.eqb (Deposit.id r) i
                     then Deposit.set_processed r else r) (deposits d);
     attestations := attestations d |}.

(** [SELECT * FROM deposits WHERE txid = ?] *)
Definition deposits_by_txid (x : string) (d : t) : list Deposit.t :=
  List.filter (fun r => String.eqb (Deposit.txid r) x) (deposits d).

(** [SELECT * FROM deposits WHERE id = ?] *)
Definition deposit_by_id (i : string) (d : t) : option Deposit.t :=
  List.find (fun r => String.eqb (Deposit.id r) i) (deposits d).
End Db.

(** ** src/services/verifier.ts *)

Module Verifier.
Local Open Scope Z_scope.

Record VerificationResult := { valid : bool; reason : option string }.

Definition RATE_LIMIT_WINDOW_MS : Z := 60000.
Definition MAX_EVENTS_PER_WINDOW : nat := 10.

Record RateLimitEntry := { wallet : string; timestamps : list Z }.

(** The module-level [rateLimitMap]. *)
Abbreviation ledger := (gmap string RateLimitEntry).

Definition fresh (now ts : Z) : bool := now - ts <? RATE_LIMIT_WINDOW_MS.

Definition cleanupOldEntries (now : Z) (rateLimitMap : ledger) : ledger :=
  omap (fun entry =>
          let kept := List.filter (fresh now) (timestamps entry) in
          match kept with
          | [] => None
          | _ => Some {| wallet := wallet entry; timestamps := kept |}
          end) rateLimitMap.

Definition verifyDeposit (now : Z) (deposit : Deposit.t)
    (rateLimitMap : ledger) : VerificationResult * ledger :=
  if Qle_bool (Deposit.amount deposit) 0 then
    ({| valid := false; reason := Some "Amount must be greater than 0" |},
     rateLimitMap)
  else
    let twentyFourHoursAgo := now - 24 * 60 * 60 * 1000 in
    if Deposit.timestamp deposit <? twentyFourHoursAgo then
      ({| valid := false; reason := Some "Deposit timestamp too old" |},
       rateLimitMap)
    else if now + 60000 <? Deposit.timestamp deposit then
      ({| valid := false; reason := Some "Deposit timestamp in future" |},
       rateLimitMap)
    else if String.eqb (Deposit.wallet deposit) ""
            || (String.length (Deposit.wallet deposit) <? 20)%nat then
      ({| valid := false; reason := Some "Invalid wallet address" |},
       rateLimitMap)
    else
      let cleaned := cleanupOldEntries now rateLimitMap in
      let entry :=
        match cleaned !! Deposit.wallet deposit with
        | Some e => e
        | None => {| wallet := Deposit.wallet deposit; timestamps := [] |}
        end in
      if (MAX_EVENTS_PER_WINDOW <=? length (timestamps entry))%nat then
        ({| valid := false; reason := Some "Rate limit exceeded" |},
         cleaned)
      else
        ({| valid := true; reason := None |},
         <[Deposit.wallet deposit :=
             {| wallet := wallet entry;
                timestamps := timestamps entry ++ [now] |}]> cleaned).

Definition checkDuplicate (deposit : Deposit.t)
    (existingDeposits : list Deposit.t) : bool :=
  existsb (fun d => String.eqb (Deposit.txid d) (Deposit.txid deposit)
                    || String.eqb (Deposit.id d) (Deposit.id deposit))
          existingDeposits.

(** A run of calls, each at its own instant, threading the ledger. *)
Fixpoint verifyAll (calls : list (Z * Deposit.t)) (rateLimitMap : ledger)
  : list VerificationResult * ledger :=
  match calls with
  | [] => ([], rateLimitMap)
  | (now, d) :: rest =>
      let '(r, m1) := verifyDeposit now d rateLimitMap in
      let '(rs, m2) := verifyAll rest m1 in
      (r :: rs, m2)
  end.

(** The acceptance instants on record for a wallet. *)
Definition recorded (rateLimitMap : ledger) (w : string) : list Z :=
  match rateLimitMap !! w with
  | Some e => timestamps e
  | None => []
  end.

(** No recorded acceptance is as old as the rate window at [now]. *)
Definition pruned (now : Z) (rateLimitMap : ledger) : Prop :=
  forall w ts,
    In ts (recorded rateLimitMap w) -> now - ts < RATE_LIMIT_WINDOW_MS.

Definition accepted : VerificationResult :=
  {| valid := true; reason := None |}.

Definition rejected (why : string) : VerificationResult :=
  {| valid := false; reason := Some why |}.

(** *** The checks as the specification words them

    These definitions follow the specification, not the code; the code
    is compared with them below. *)

Inductive check := AmountPositive | NotTooOld | NotInFuture | WalletFormat.

(** The order in which the specification lists the structural checks. *)
Definition spec_order : list check :=
  [AmountPositive; NotTooOld; NotInFuture; WalletFormat].

Definition spec_violates (now : Z) (d : Deposit.t) (c : check) : bool :=
  match c with
  | AmountPositive => Qle_bool (Deposit.amount d) 0
  | NotTooOld => Deposit.timestamp d <? now - 24 * 60 * 60 * 1000
  | NotInFuture => now + 60 * 1000 <? Deposit.timestamp d
  | WalletFormat => (String.length (Deposit.wallet d) <? 20)%nat
  end.

Definition spec_reason (c : check) : string :=
  match c with
  | AmountPositive => "Amount must be greater than 0"
  | NotTooOld => "Deposit timestamp too old"
  | NotInFuture => "Deposit timestamp in future"
  | WalletFormat => "Invalid wallet address"
  end.

(** The first structural check the deposit fails, if any. *)
Definition spec_structural (now : Z) (d : Deposit.t) : option check :=
  List.find (spec_violates now d) spec_order.

(** The fifth check: the wallet already has the ceiling of acceptances
    within the window. *)
Definition spec_rate_limited (now : Z) (d : Deposit.t) (m : ledger) : bool :=
  (MAX_EVENTS_PER_WINDOW <=?
     length (List.filter (fresh now) (recorded m (Deposit.wallet d))))%nat.

Definition spec_verify (now : Z) (d : Deposit.t) (m : ledger)
  : VerificationResult :=
  match spec_structural now d with
  | Some c => rejected (spec_reason c)
  | None =>
      if spec_rate_limited now d m then rejected "Rate limit exceeded"
      else accepted
  end.

(** [reason] mentions [word], letter case aside. *)
Definition lower_ascii (c : ascii) : ascii :=
  let n := nat_of_ascii c in
  if ((65 <=? n) && (n <=? 90))%nat then ascii_of_nat (n + 32) else c.

Fixpoint lower (s : string) : string :=
  match s with
  | EmptyString => EmptyString
  | String c r => String (lower_ascii c) (lower r)
  end.

Definition mentions (word reason : string) : bool :=
  match String.index 0 (lower word) (lower reason) with
  | Some _ => true
  | None => false
  end.

(** A call for wallet [w] that passes the four structural checks. *)
Definition otherwise_valid (w : string) (call : Z * Deposit.t) : Prop :=
  Deposit.wallet (snd call) = w /\
  spec_structural (fst call) (snd call) = None.
End Verifier.

(** ** The process: database, rate-limit map, sockets and chain *)

(** [config.mode] *)
Inductive Mode := mock | ethereum | solana.

(** The parts of [interface Config] (config/loadConfig.ts) the services
    read. *)
Module Config.
Record t := { mode : Mode; tiers : list Privacy.PrivacyTier }.
End Config.

(** [interface DepositEvent] of listeners/humidifiListener.ts. *)
Module DepositEvent.
Record t :=
  { id : string; txid : string; wallet : string; amount : Q;
    token : string; timestamp : Z }.
End DepositEvent.

(** What [io.emit] sends to the connected clients. *)
Inductive broadcast :=
| deposit_new (deposit : DepositEvent.t)
| deposit_verified (depositId : string) (valid : bool)
    (reason : option string)
| attestation_minted (depositId address tier : string)
    (tokenId : option string).

(** One use of a minting capability: which one, for whom, and its second
    argument (the metadata URI on Ethereum, the tier for the two mocks). *)
Record MintCall := { via : Mode; to : string; what : string }.

Record World :=
  { db : Db.t;
    rateLimitMap : Verifier.ledger;
    emitted : list broadcast;
    mintCalls : list MintCall }.

(** Code that reads and writes the process state and may throw. *)
Definition Js (A : Type) : Type := World -> outcome A * World.

#[global] Instance Js_ret : MRet Js := fun A a w => (Return a, w).

#[global] Instance Js_bind : MBind Js := fun A B k c w =>
  match c w with
  | (Return a, w1) => k a w1
  | (Throw e, w1) => (Throw e, w1)
  end.

Definition throw {A} (e : thrown) : Js A := fun w => (Throw e, w).

(** [try { body } catch (error) { handler }] *)
Definition try_catch {A} (body : Js A) (handler : thrown -> Js A) : Js A :=
  fun w =>
    match body w with
    | (Return a, w1) => (Return a, w1)
    | (Throw e, w1) => handler e w1
    end.

Definition set_db (d : Db.t) (w : World) : World :=
  {| db := d; rateLimitMap := rateLimitMap w; emitted := emitted w;
     mintCalls := mintCalls w |}.

(** A statement that may fail on a constraint. *)
Definition db_run (stmt : Db.t -> outcome Db.t) : Js unit := fun w =>
  match stmt (db w) with
  | Return d => (Return tt, set_db d w)
  | Throw e => (Throw e, w)
  end.

Definition db_exec (stmt : Db.t -> Db.t) : Js unit := fun w =>
  (Return tt, set_db (stmt (db w)) w).

Definition db_query {A} (q : Db.t -> A) : Js A := fun w => (Return (q (db w)), w).

Definition io_emit (b : broadcast) : Js unit := fun w =>
  (Return tt,
   {| db := db w; rateLimitMap := rateLimitMap w;
      emitted := emitted w ++ [b]; mintCalls := mintCalls w |}).

Definition record_mint (c : MintCall) : Js unit := fun w =>
  (Return tt,
   {| db := db w; rateLimitMap := rateLimitMap w; emitted := emitted w;
      mintCalls := mintCalls w ++ [c] |}).

Definition verify (now : Z) (deposit : Deposit.t)
  : Js Verifier.VerificationResult := fun w =>
  let '(r, m) := Verifier.verifyDeposit now deposit (rateLimitMap w) in
  (Return r,
   {| db := db w; rateLimitMap := m; emitted := emitted w;
      mintCalls := mintCalls w |}).

(** ** src/services/minter.ts *)

Module Minter.

Record MintResult :=
  { success : bool; attestationId : option string;
    tokenId : option string; error : option string }.

(** The transaction receipt: the topics of each log, and the hash. *)
Record Receipt := { logs : list (list string); hash : string }.

(** The deployed contract behind [ethers.Contract]: how the gas estimate,
    the transaction and the wait for its receipt end for a call
    [mintAttestation(wallet, uri)]. *)
Definition Contract : Type := string -> string -> outcome Receipt.

Record MinterService :=
  { config : Config.t; ethereumContract : option Contract }.

Definition mintOnEthereum (this : MinterService) (now : Z)
    (wallet tier : string) (metadataUri : option string)
  : Js (string * string) :=
  match ethereumContract this with
  | None => throw (JsError "Ethereum contract not initialized")
  | Some contract =>
      let uri :=
        match metadataUri with
        | Some u =>
            if String.eqb u ""
            then "https://scotopia.io/attestations/" +:+ wallet
                 +:+ "/" +:+ tier
            else u
        | None => "https://scotopia.io/attestations/" +:+ wallet
                  +:+ "/" +:+ tier
        end in
      record_mint {| via := ethereum; to := wallet; what := uri |};;
      match contract wallet uri with
      | Throw e => throw e
      | Return receipt =>
          match logs receipt with
          | [] => mret (pretty now, hash receipt)
          | topics :: _ =>
              match topics !! 3%nat with
              | Some tokenId => mret (tokenId, hash receipt)
              | None =>
                  throw (JsError
                    "Cannot read properties of undefined (reading 'toString')")
              end
          end
      end
  end.

Definition mintOnSolana (now : Z) (wallet tier : string) : Js string :=
  record_mint {| via := solana; to := wallet; what := tier |};;
  mret ("sol-mock-" +:+ pretty now).

Definition mintMock (now : Z) (wallet tier : string) : Js string :=
  record_mint {| via := mock; to := wallet; what := tier |};;
  mret ("mock-" +:+ pretty now).

Definition failure (msg : string) : MintResult :=
  {| success := false; attestationId := None; tokenId := None;
     error := Some msg |}.

(** The [if (this.config.mode === ...)] chain: the minting capability
    selected by the mode, giving the token id. *)
Definition delegate (this : MinterService) (now : Z)
    (deposit : Deposit.t) (tier : string) (metadataUri : option string)
  : Js string :=
  match Config.mode (config this) with
  | ethereum =>
      result ← mintOnEthereum this now (Deposit.wallet deposit)
                 tier metadataUri;
      mret (fst result)
  | solana => mintOnSolana now (Deposit.wallet deposit) tier
  | mock => mintMock now (Deposit.wallet deposit) tier
  end.

(** [error instanceof Error ? error.message : 'Unknown error'] *)
Definition describe (error : thrown) : string :=
  match error with
  | JsError message => message
  | NotAnError => "Unknown error"
  end.

(** [now] is the value of [Date.now()], [uuid] the value of [uuidv4()]. *)
Definition mintAttestation (this : MinterService) (now : Z) (uuid : string)
    (deposit : Deposit.t) (tier : string) (metadataUri : option string)
  : Js MintResult :=
  try_catch
    (if Deposit.processed deposit then
       mret (failure "Deposit already processed")
     else
       tokenId ← delegate this now deposit tier metadataUri;
       let attestationId := uuid in
       let metadata :=
         {| Metadata.depositId := Deposit.id deposit;
            Metadata.tier := tier;
            Metadata.timestamp := now;
            Metadata.metadataUri := metadataUri |} in
       db_run (Db.insert_attestation
                 {| Attestation.id := attestationId;
                    Attestation.deposit_id := Deposit.id deposit;
                    Attestation.wallet := Deposit.wallet deposit;
                    Attestation.tier := tier;
                    Attestation.token_id := Some tokenId;
                    Attestation.minted_at := now;
                    Attestation.metadata := metadata |});;
       db_exec (Db.mark_processed (Deposit.id deposit));;
       mret {| success := true; attestationId := Some attestationId;
               tokenId := Some tokenId; error := None |})
    (fun error => mret (failure (describe error))).

End Minter.

(** ** src/index.ts: the deposit event handler *)

Module Pipeline.

(** [const dbDeposit: Deposit = { ...deposit fields, processed: false,
    created_at }] *)
Definition dbDeposit (now : Z) (deposit : DepositEvent.t) : Deposit.t :=
  {| Deposit.id := DepositEvent.id deposit;
     Deposit.txid := DepositEvent.txid deposit;
     Deposit.wallet := DepositEvent.wallet deposit;
     Deposit.amount := DepositEvent.amount deposit;
     Deposit.token := DepositEvent.token deposit;
     Deposit.timestamp := DepositEvent.timestamp deposit;
     Deposit.processed := false;
     Deposit.created_at := now |}.

(** [minter] is [new MinterService(config, db)]: the handler and the
    minter read the same [config]. *)
Definition on_deposit (minter : Minter.MinterService)
    (now : Z) (uuid : string) (deposit : DepositEvent.t) : Js unit :=
  let config := Minter.config minter in
  try_catch
    (let dbDeposit := dbDeposit now deposit in
     db_run (Db.insert_deposit dbDeposit);;
     io_emit (deposit_new deposit);;
     verification ← verify now dbDeposit;
     if negb (Verifier.valid verification) then
       io_emit (deposit_verified (DepositEvent.id deposit) false
                  (Verifier.reason verification))
     else
       existingDeposits ←
         db_query (Db.deposits_by_txid (DepositEvent.txid deposit));
       if Verifier.checkDuplicate dbDeposit existingDeposits then
         io_emit (deposit_verified (DepositEvent.id deposit) false
                    (Some "Duplicate deposit"))
       else
         io_emit (deposit_verified (DepositEvent.id deposit) true None);;
         match Config.mode config with
         | mock =>
             let tier :=
               Privacy.getPrivacyTier (DepositEvent.amount deposit)
                 (Config.tiers config) in
             result ← Minter.mintAttestation minter now uuid dbDeposit
                        (Privacy.tier tier) None;
             if Minter.success result then
               io_emit (attestation_minted (DepositEvent.id deposit)
                          (DepositEvent.wallet deposit) (Privacy.tier tier)
                          (Minter.tokenId result))
             else mret tt
         | _ => mret tt
         end)
    (fun _ => mret tt).

End Pipeline.

(** ** Sample data *)

Module Sample.
Local Open Scope Q_scope.

(** The tier table of services/privacy.test.ts. *)
Definition tiers : list Privacy.PrivacyTier :=
  [ {| Privacy.name := "Tier A"; Privacy.threshold := 100 |};
    {| Privacy.name := "Tier B"; Privacy.threshold := 10 |};
    {| Privacy.name := "Tier C"; Privacy.threshold := 1 |} ].

(** Two tiers sharing a threshold, in both orders. *)
Definition tiedAB : list Privacy.PrivacyTier :=
  [ {| Privacy.name := "Tier A"; Privacy.threshold := 10 |};
    {| Privacy.name := "Tier B"; Privacy.threshold := 10 |} ].

Definition tiedBA : list Privacy.PrivacyTier := rev tiedAB.

(** The wallet of services/verifier.test.ts. *)
Definition wallet : string := "0x742d35Cc6634C0532925a3b844Bc9e7595f0bEb".

(** A deposit of that wallet with the given amount, observed at [ts]. *)
Definition deposit (amount : Q) (ts : Z) : Deposit.t :=
  {| Deposit.id := "test-1"; Deposit.txid := "0x123";
     Deposit.wallet := wallet; Deposit.amount := amount;
     Deposit.token := "USDC"; Deposit.timestamp := ts;
     Deposit.processed := false; Deposit.created_at := ts |}.

(** A call at instant [t] with a deposit observed at that instant. *)
Definition call (t : Z) : Z * Deposit.t := (t, deposit (21 # 2) t).

(** Ten calls within one second, an eleventh right after, and a twelfth
    one minute after the first. *)
Definition burst : list (Z * Deposit.t) :=
  map call [1100; 1200; 1300; 1400; 1500; 1600; 1700; 1800; 1900]%Z.

(** The ledger after one accepted call at instant 0. *)
Definition ledger_after_one : Verifier.ledger :=
  snd (Verifier.verifyDeposit 0 (deposit (21 # 2) 0) ∅).

(** A process in mock mode, and one on Ethereum whose contract call is
    refused by the network. *)
Definition mockMinter : Minter.MinterService :=
  {| Minter.config := {| Config.mode := mock; Config.tiers := tiers |};
     Minter.ethereumContract := None |}.

Definition failingMinter : Minter.MinterService :=
  {| Minter.config := {| Config.mode := ethereum; Config.tiers := tiers |};
     Minter.ethereumContract :=
       Some (fun _ _ => Throw (JsError "network error")) |}.

(** A fresh process: empty tables, empty ledger, nothing sent. *)
Definition fresh_world : World :=
  {| db := {| Db.foreign_keys := true; Db.deposits := [];
              Db.attestations := [] |};
     rateLimitMap := ∅; emitted := []; mintCalls := [] |}.

(** A process whose [deposits] table holds one unprocessed deposit. *)
Definition stored : Deposit.t := deposit (150 # 1) 0.

Definition world_with_deposit : World :=
  {| db := {| Db.foreign_keys := true; Db.deposits := [stored];
              Db.attestations := [] |};
     rateLimitMap := ∅; emitted := []; mintCalls := [] |}.

(** The world after a first successful mint of [stored]. *)
Definition world_after_mint : World :=
  snd (Minter.mintAttestation mockMinter 5 "att-1" stored "Tier A" None
         world_with_deposit).

(** The first sample deposit of the mock listener, observed 10 s before
    [now]. *)
Definition mock1 (now : Z) : DepositEvent.t :=
  {| DepositEvent.id := "mock-1";
     DepositEvent.txid :=
       "0xabcdef1234567890abcdef1234567890abcdef1234567890abcdef1234567890";
     DepositEvent.wallet := "0x3FfC1234567890abcdef1234567890ABCDEFABCD";
     DepositEvent.amount := 25 # 2;
     DepositEvent.token := "USDC";
     DepositEvent.timestamp := now - 10000 |}.
End Sample.

(** ** src/services/minter.ts: the two queries *)

Module Queries.

(** [getAttestations(wallet)]: [SELECT * FROM attestations WHERE wallet = ?] *)
Definition getAttestations (wallet : string) (d : Db.t)
  : list Attestation.t :=
  List.filter (fun a => String.eqb (Attestation.wallet a) wallet)
    (Db.attestations d).

(** [getAttestationById(attestationId)]:
    [SELECT * FROM attestations WHERE id = ?], first row or [undefined]. *)
Definition getAttestationById (attestationId : string) (d : Db.t)
  : option Attestation.t :=
  List.find (fun a => String.eqb (Attestation.id a) attestationId)
    (Db.attestations d).

End Queries.

(** ** src/index.ts: the administrative route [POST /api/mint]

    The route as registered: [requireAdmin], then the handler.  The
    [express-rate-limit] middleware mounted in front of [/api/] is not part
    of the model. *)

Module Api.

(** The request: the [x-admin-api-key] header and the two fields read from
    the JSON body, each possibly absent. *)
Record Request :=
  { apiKey : option string; address : option string;
    depositId : option string }.

Inductive Json :=
| error_json (error : option string)
| minted_json (success : bool) (attestationId tokenId : option string).

Record Response := { status : nat; body : Json }.

(** JavaScript's [!x] for a string that may be absent. *)
Definition falsy (x : option string) : bool :=
  match x with
  | None => true
  | Some v => String.eqb v ""
  end.

(** [function requireAdmin(req, res, next)] *)
Definition requireAdmin (adminApiKey : string) (req : Request)
    (next : Js Response) : Js Response :=
  match apiKey req with
  | Some k =>
      if String.eqb k adminApiKey then next
      else mret {| status := 401; body := error_json (Some "Unauthorized") |}
  | None => mret {| status := 401; body := error_json (Some "Unauthorized") |}
  end.

(** The handler behind [requireAdmin]. *)
Definition mint_handler (minter : Minter.MinterService) (now : Z)
    (uuid : string) (req : Request) : Js Response :=
  try_catch
    (if falsy (address req) || falsy (depositId req) then
       mret {| status := 400;
               body := error_json (Some "Address and depositId required") |}
     else
       let address := default "" (address req) in
       let depositId := default "" (depositId req) in
       found ← db_query (Db.deposit_by_id depositId);
       match found with
       | None =>
           mret {| status := 404;
                   body := error_json (Some "Deposit not found") |}
       | Some deposit =>
           if Deposit.processed deposit then
             mret {| status := 400;
                     body := error_json (Some "Deposit already processed") |}
           else
             let tier :=
               Privacy.tier
                 (Privacy.getPrivacyTier (Deposit.amount deposit)
                    (Config.tiers (Minter.config minter))) in
             result ← Minter.mintAttestation minter now uuid deposit tier None;
             if Minter.success result then
               io_emit (attestation_minted depositId address tier
                          (Minter.tokenId result));;
               mret {| status := 200;
                       body := minted_json true (Minter.attestationId result)
                                 (Minter.tokenId result) |}
             else
               mret {| status := 500;
                       body := error_json (Minter.error result) |}
       end)
    (fun _ =>
       mret {| status := 500;
               body := error_json (Some "Internal server error") |}).

(** [app.post('/api/mint', requireAdmin, async (req, res) => ...)] *)
Definition post_mint (adminApiKey : string) (minter : Minter.MinterService)
    (now : Z) (uuid : string) (req : Request) : Js Response :=
  requireAdmin adminApiKey req (mint_handler minter now uuid req).

(** [app.get('/api/attestations/:address', ...)] *)
Definition get_attestations (address : string) : Js (list Attestation.t) :=
  db_query (Queries.getAttestations address).

End Api.

(** ** Shapes of the rate-limit map *)

Module Ledger.

(** Every entry sits under its own wallet and holds at least one instant. *)
Definition well_formed (m : Verifier.ledger) : Prop :=
  forall w e, m !! w = Some e ->
    Verifier.wallet e = w /\ Verifier.timestamps e <> [].

(** No wallet has more instants on record than the ceiling. *)
Definition bounded (m : Verifier.ledger) : Prop :=
  forall w,
    (length (Verifier.recorded m w) <= Verifier.MAX_EVENTS_PER_WINDOW)%nat.

End Ledger.

(** ** The process serving events and requests, one after the other *)

Module Process.





End Process.

(** ** More sample data *)

Module Scenario.

(** A second wallet. *)
Definition other_wallet : string :=
  "0x4A8b567890ABCDEFabcdef1234567890abcdef1234".

Definition other_deposit (t : Z) : Deposit.t :=
  {| Deposit.id := "test-2"; Deposit.txid := "0x456";
     Deposit.wallet := other_wallet; Deposit.amount := 5 # 1;
     Deposit.token := "USDC"; Deposit.timestamp := t;
     Deposit.processed := false; Deposit.created_at := t |}.

(** An administrator's request to mint for the stored sample deposit. *)
Definition admin_request : Api.Request :=
  {| Api.apiKey := Some "secret"; Api.address := Some "0xRecipient";
     Api.depositId := Some "test-1" |}.

(** The world after that request has been served once. *)
Definition world_after_request : World :=
  snd (Api.post_mint "secret" Sample.mockMinter 5 "att-1" admin_request
         Sample.world_with_deposit).

(** An Ethereum process that never ran [initialize()]. *)
Definition uninitialized : Minter.MinterService :=
  {| Minter.config :=
       {| Config.mode := ethereum; Config.tiers := Sample.tiers |};
     Minter.ethereumContract := None |}.

(** An Ethereum process whose contract answers with a receipt whose first
    log has three topics only. *)
Definition short_topics : Minter.MinterService :=
  {| Minter.config :=
       {| Config.mode := ethereum; Config.tiers := Sample.tiers |};
     Minter.ethereumContract :=
       Some (fun _ _ =>
               Return {| Minter.logs := [["t0"; "t1"; "t2"]];
                         Minter.hash := "0xhash" |}) |}.

(** A world whose only deposit row was inserted by the handler for the
    first mock event. *)
Definition world_after_mock1 : World :=
  snd (Pipeline.on_deposit Sample.mockMinter 1700000000000 "att-1"
         (Sample.mock1 1700000000000) Sample.fresh_world).

(** The first mock event with its amount replaced by 0. *)
Definition worthless (now : Z) : DepositEvent.t :=
  {| DepositEvent.id := "mock-0";
     DepositEvent.txid := "0x00";
     DepositEvent.wallet := "0x3FfC1234567890abcdef1234567890ABCDEFABCD";
     DepositEvent.amount := 0;
     DepositEvent.token := "USDC";
     DepositEvent.timestamp := now |}.


(** The rate-limit map after ten accepted calls of the sample wallet at
    instant 0. *)
Definition saturated : Verifier.ledger :=
  snd (Verifier.verifyAll (replicate 10 (Sample.call 0)) ∅).

(** Ten calls within 20 ms, just before and just after the ten earlier
    acceptances leave the window; an eleventh 10 ms later; a twelfth one
    minute after the first. *)
Definition crowded_first : Z * Deposit.t := Sample.call 59990.

Definition crowded_rest : list (Z * Deposit.t) :=
  replicate 8 (Sample.call 59990) ++ [Sample.call 60010].

Definition crowded_next : Z * Deposit.t := Sample.call 60020.

Definition crowded_later : Z * Deposit.t := Sample.call 119990.

End Scenario.

(** * Properties *)

(** ** The tier classifier *)

Section PrivacyFacts.
Import Privacy.
Local Open Scope Q_scope.

Lemma sort_insert_perm {A} (cmp : A -> A -> Q) x l :
  sort_insert cmp x l ≡ₚ x :: l.
Proof.
  induction l as [|h r IH]; simpl; [done|].
  destruct (Qlt_le_dec 0 (cmp x h)); [|done].
  rewrite IH. apply Permutation_swap.
Qed.

Lemma Array_sort_perm {A} (cmp : A -> A -> Q) l : Array_sort cmp l ≡ₚ l.
Proof.
  induction l as [|x r IH]; simpl; [done|].
  by rewrite sort_insert_perm, IH.
Qed.

Lemma sort_insert_sorted x l :
  StronglySorted desc l -> StronglySorted desc (sort_insert byThreshold x l).
Proof.
  induction 1 as [|h r Hr IH Hh]; simpl.
  - repeat constructor.
  - destruct (Qlt_le_dec 0 (byThreshold x h)) as [Hlt|Hle];
      unfold byThreshold in *.
    + constructor; [exact IH|].
      rewrite sort_insert_perm. constructor; [unfold desc; lra|exact Hh].
    + constructor; [by constructor|].
      constructor; [unfold desc; lra|].
      eapply Forall_impl; [exact Hh|]. unfold desc. intros; lra.
Qed.

Lemma Array_sort_sorted l : StronglySorted desc (Array_sort byThreshold l).
Proof.
  induction l; simpl; [constructor|by apply sort_insert_sorted].
Qed.

(** The sort is stable: tiers of equal threshold keep their input order. *)
Lemma sort_insert_stable v x l :
  List.filter (fun t => Qeq_bool (threshold t) v)
    (sort_insert byThreshold x l)
  = List.filter (fun t => Qeq_bool (threshold t) v) (x :: l).
Proof.
  induction l as [|h r IH]; [done|].
  cbn [sort_insert].
  destruct (Qlt_le_dec 0 (byThreshold x h)) as [Hlt|_]; [|done].
  cbn [List.filter] in *. rewrite IH.
  destruct (Qeq_bool (threshold x) v) eqn:Ex; [|done].
  destruct (Qeq_bool (threshold h) v) eqn:Eh; [|done].
  apply Qeq_bool_iff in Ex, Eh. unfold byThreshold in Hlt. lra.
Qed.

Lemma Array_sort_stable v l :
  List.filter (fun t => Qeq_bool (threshold t) v) (Array_sort byThreshold l)
  = List.filter (fun t => Qeq_bool (threshold t) v) l.
Proof.
  induction l as [|x r IH]; [done|].
  cbn [Array_sort]. rewrite sort_insert_stable. cbn [List.filter].
  by rewrite IH.
Qed.

(** The loop returns the first tier the amount reaches. *)
Lemma for_of_find amount l :
  for_of amount l =
  (fun t => {| tier := name t; amount := threshold t;
               originalAmount := amount |})
    <$> List.find (fun t => Qle_bool (threshold t) amount) l.
Proof.
  induction l as [|t r IH]; simpl; [done|].
  by destruct (Qle_bool (threshold t) amount).
Qed.

(** In a table sorted by descending threshold, the tier found has the
    greatest threshold among those the amount reaches. *)
Lemma find_sorted_greatest amount l t :
  StronglySorted desc l ->
  List.find (fun t => Qle_bool (threshold t) amount) l = Some t ->
  In t l /\ threshold t <= amount /\
  forall u, In u l -> threshold u <= amount -> threshold u <= threshold t.
Proof.
  induction 1 as [|h r Hr IH Hh]; simpl; [done|].
  destruct (Qle_bool (threshold h) amount) eqn:E.
  - intros [= <-]. apply Qle_bool_iff in E.
    split; [by left|]. split; [done|].
    intros u [<-|Hu] _; [lra|].
    rewrite Forall_forall in Hh. apply Hh. by apply list_elem_of_In.
  - intros Hf. destruct (IH Hf) as (Hin & Hle & Hmax).
    split; [by right|]. split; [done|].
    intros u [<-|Hu] Hua; [|by apply Hmax].
    apply Qle_bool_iff in Hua. congruence.
Qed.

Lemma find_none_unreached amount l :
  List.find (fun t => Qle_bool (threshold t) amount) l = None ->
  forall u, In u l -> ~ threshold u <= amount.
Proof.
  intros Hf u Hu Hle.
  pose proof (find_none _ _ Hf u Hu) as E. simpl in E.
  apply Qle_bool_iff in Hle. congruence.
Qed.

Lemma getPrivacyTier_winner amount tiers :
  getPrivacyTier amount tiers =
  match winner amount tiers with
  | Some t => {| tier := name t; amount := threshold t;
                 originalAmount := amount |}
  | None => {| tier := "No Tier"; amount := 0; originalAmount := amount |}
  end.
Proof.
  unfold getPrivacyTier, winner. rewrite for_of_find.
  by destruct (List.find _ _).
Qed.

Lemma winner_greatest amount tiers t :
  winner amount tiers = Some t ->
  In t tiers /\ threshold t <= amount /\
  forall u, In u tiers -> threshold u <= amount -> threshold u <= threshold t.
Proof.
  intros Hw.
  destruct (find_sorted_greatest _ _ _ (Array_sort_sorted tiers) Hw)
    as (Hin & Hle & Hmax).
  pose proof (Array_sort_perm byThreshold tiers) as Hp.
  split; [|split; [done|]].
  - apply list_elem_of_In. rewrite <- Hp. by apply list_elem_of_In.
  - intros u Hu. apply Hmax.
    apply list_elem_of_In. rewrite Hp. by apply list_elem_of_In.
Qed.

Lemma winner_none amount tiers :
  winner amount tiers = None ->
  forall u, In u tiers -> ~ threshold u <= amount.
Proof.
  intros Hw u Hu. apply (find_none_unreached _ _ Hw).
  apply list_elem_of_In. rewrite (Array_sort_perm byThreshold tiers).
  by apply list_elem_of_In.
Qed.

Lemma distinct_thresholds_inj tiers t u :
  distinct_thresholds tiers = true ->
  In t tiers -> In u tiers -> threshold t == threshold u -> t = u.
Proof.
  induction tiers as [|h r IH]; simpl; [done|].
  intros [Hh Hr]%andb_true_iff Ht Hu E.
  rewrite forallb_forall in Hh.
  destruct Ht as [<-|Ht], Hu as [<-|Hu]; [done| | |by apply IH].
  - specialize (Hh _ Hu). apply negb_true_iff in Hh.
    apply Qeq_bool_iff in E. congruence.
  - specialize (Hh _ Ht). apply negb_true_iff in Hh.
    symmetry in E. apply Qeq_bool_iff in E. congruence.
Qed.

End PrivacyFacts.

Section PrivacyClaims.
Import Privacy.
Local Open Scope Q_scope.

(** C2, as stated, fails: with two tiers sharing a threshold the stable
    sort keeps them in input order, so the two orderings of the same
    table name different tiers for the amount 10. *)
Lemma getPrivacyTier_tie_follows_input_order :
  Permutation Sample.tiedAB Sample.tiedBA /\
  tier (getPrivacyTier 10 Sample.tiedAB) = "Tier A" /\
  tier (getPrivacyTier 10 Sample.tiedBA) = "Tier B" /\
  getPrivacyTier 10 Sample.tiedAB <> getPrivacyTier 10 Sample.tiedBA.
Proof.
  split; [apply Permutation_rev|].
  split; [reflexivity|]. split; [reflexivity|].
  vm_compute. discriminate.
Qed.

(** C2, amended: for every amount and every two tier tables that are
    permutations of each other, [getPrivacyTier] returns the same
    bucketed amount and the same original amount; when no two tiers of
    the table share a threshold it returns the same result altogether
    (tier name included). *)
Theorem getPrivacyTier_permutation amount tiers1 tiers2 :
  Permutation tiers1 tiers2 ->
  Privacy.amount (getPrivacyTier amount tiers1)
    == Privacy.amount (getPrivacyTier amount tiers2) /\
  originalAmount (getPrivacyTier amount tiers1)
    = originalAmount (getPrivacyTier amount tiers2) /\
  (distinct_thresholds tiers1 = true ->
   getPrivacyTier amount tiers1 = getPrivacyTier amount tiers2).
Proof.
  intros Hp.
  assert (Hmem : forall u, In u tiers1 <-> In u tiers2).
  { intros u. rewrite <- !list_elem_of_In. by rewrite Hp. }
  rewrite !getPrivacyTier_winner.
  destruct (winner amount tiers1) as [t1|] eqn:W1,
           (winner amount tiers2) as [t2|] eqn:W2; simpl.
  - destruct (winner_greatest _ _ _ W1) as (I1 & L1 & M1).
    destruct (winner_greatest _ _ _ W2) as (I2 & L2 & M2).
    assert (E : threshold t1 == threshold t2).
    { apply Qle_antisym; [apply M2|apply M1]; try done; by apply Hmem. }
    split; [done|]. split; [done|].
    intros Hd.
    by rewrite (distinct_thresholds_inj tiers1 t1 t2 Hd I1
                  (proj2 (Hmem _) I2) E).
  - destruct (winner_greatest _ _ _ W1) as (I1 & L1 & _).
    by destruct (winner_none _ _ W2 t1 (proj1 (Hmem _) I1)).
  - destruct (winner_greatest _ _ _ W2) as (I2 & L2 & _).
    by destruct (winner_none _ _ W1 t2 (proj2 (Hmem _) I2)).
  - done.
Qed.

Lemma getPrivacyTier_permutation_witness :
  Permutation Sample.tiers (rev Sample.tiers) /\
  distinct_thresholds Sample.tiers = true /\
  getPrivacyTier 25 Sample.tiers = getPrivacyTier 25 (rev Sample.tiers).
Proof.
  split; [apply Permutation_rev|]. split; [reflexivity|].
  apply (getPrivacyTier_permutation 25 Sample.tiers (rev Sample.tiers));
    [apply Permutation_rev|reflexivity].
Defined.

(** C9: for every amount and tier table, if no tier's threshold is at
    most the amount, [getPrivacyTier] returns the tier name "No Tier"
    with bucketed amount 0 and the input amount as original amount. *)
Theorem getPrivacyTier_no_tier amount tiers :
  Forall (fun t => ~ threshold t <= amount) tiers ->
  getPrivacyTier amount tiers =
  {| tier := "No Tier"; amount := 0; originalAmount := amount |}.
Proof.
  intros Hall. rewrite getPrivacyTier_winner.
  destruct (winner amount tiers) as [t|] eqn:W; [|done].
  destruct (winner_greatest _ _ _ W) as (Hin & Hle & _).
  rewrite Forall_forall in Hall.
  by destruct (Hall t (proj2 (list_elem_of_In _ _) Hin)).
Qed.

Lemma getPrivacyTier_no_tier_witness :
  Forall (fun t => ~ threshold t <= 1 # 2) Sample.tiers /\
  getPrivacyTier (1 # 2) Sample.tiers =
  {| tier := "No Tier"; amount := 0; originalAmount := 1 # 2 |}.
Proof.
  assert (H : Forall (fun t => ~ threshold t <= 1 # 2) Sample.tiers).
  { repeat constructor; unfold Qle; simpl; lia. }
  split; [exact H|].
  apply (getPrivacyTier_no_tier (1 # 2) Sample.tiers H).
Defined.

(** C10: for every tier table whose thresholds are all non-negative and
    every amount, [anonymizeAmount] is idempotent: bucketing a bucketed
    amount under the same table yields it again (numbers compared as
    JavaScript's [===] does). *)
Theorem anonymizeAmount_idempotent amount tiers :
  Forall (fun t => 0 <= threshold t) tiers ->
  anonymizeAmount (anonymizeAmount amount tiers) tiers
    == anonymizeAmount amount tiers.
Proof.
  intros Hpos. unfold anonymizeAmount.
  rewrite (getPrivacyTier_winner amount).
  destruct (winner amount tiers) as [t|] eqn:W1; simpl;
    rewrite getPrivacyTier_winner.
  - destruct (winner_greatest _ _ _ W1) as (I1 & _ & _).
    destruct (winner (threshold t) tiers) as [t'|] eqn:W2; simpl.
    + destruct (winner_greatest _ _ _ W2) as (_ & L2 & M2).
      apply Qle_antisym; [done|]. apply M2; [done|apply Qle_refl].
    + destruct (winner_none _ _ W2 t I1). apply Qle_refl.
  - destruct (winner 0 tiers) as [t'|] eqn:W2; simpl; [|reflexivity].
    destruct (winner_greatest _ _ _ W2) as (I2 & L2 & _).
    rewrite Forall_forall in Hpos.
    apply Qle_antisym; [done|].
    apply Hpos. by apply list_elem_of_In.
Qed.

Lemma anonymizeAmount_idempotent_witness :
  Forall (fun t => 0 <= threshold t) Sample.tiers /\
  anonymizeAmount (anonymizeAmount 25 Sample.tiers) Sample.tiers
    == anonymizeAmount 25 Sample.tiers.
Proof.
  assert (H : Forall (fun t => 0 <= threshold t) Sample.tiers).
  { repeat constructor; unfold Qle; simpl; lia. }
  split; [exact H|].
  apply (anonymizeAmount_idempotent 25 Sample.tiers H).
Defined.

End PrivacyClaims.

(** ** The verifier *)

Section VerifierFacts.
Import Verifier.
Local Open Scope Z_scope.

Lemma cleanup_recorded now (m : ledger) w :
  recorded (cleanupOldEntries now m) w
  = List.filter (fresh now) (recorded m w).
Proof.
  unfold recorded, cleanupOldEntries. rewrite lookup_omap.
  destruct (m !! w) as [e|]; simpl; [|done].
  by destruct (List.filter (fresh now) (timestamps e)).
Qed.

(** The code's wallet test is the specification's length test. *)
Lemma wallet_test w :
  String.eqb w "" || (String.length w <? 20)%nat
  = (String.length w <? 20)%nat.
Proof. by destruct w. Qed.

(** A deposit failing a structural check is rejected for the first check
    it fails, and the ledger is not touched. *)
Lemma verifyDeposit_structural now d (m : ledger) c :
  spec_structural now d = Some c ->
  verifyDeposit now d m = (rejected (spec_reason c), m).
Proof.
  unfold spec_structural, spec_order, verifyDeposit; simpl.
  rewrite wallet_test.
  destruct (Qle_bool (Deposit.amount d) 0); [by intros [= <-]|].
  destruct (Deposit.timestamp d <? now - 24 * 60 * 60 * 1000);
    [by intros [= <-]|].
  change (60 * 1000) with 60000.
  destruct (now + 60000 <? Deposit.timestamp d); [by intros [= <-]|].
  destruct (String.length (Deposit.wallet d) <? 20)%nat;
    [by intros [= <-]|done].
Qed.

(** A deposit passing the structural checks reaches the rate limiter:
    the ledger is pruned, and the call is accepted and recorded unless
    the wallet is at its ceiling. *)
Lemma verifyDeposit_rate now d (m : ledger) :
  spec_structural now d = None ->
  verifyDeposit now d m =
  let cleaned := cleanupOldEntries now m in
  let entry :=
    match cleaned !! Deposit.wallet d with
    | Some e => e
    | None => {| wallet := Deposit.wallet d; timestamps := [] |}
    end in
  if spec_rate_limited now d m then (rejected "Rate limit exceeded", cleaned)
  else (accepted,
        <[Deposit.wallet d :=
            {| wallet := wallet entry;
               timestamps := timestamps entry ++ [now] |}]> cleaned).
Proof.
  unfold spec_structural, spec_order, verifyDeposit; simpl.
  rewrite wallet_test.
  destruct (Qle_bool (Deposit.amount d) 0); [done|].
  destruct (Deposit.timestamp d <? now - 24 * 60 * 60 * 1000); [done|].
  change (60 * 1000) with 60000.
  destruct (now + 60000 <? Deposit.timestamp d); [done|].
  destruct (String.length (Deposit.wallet d) <? 20)%nat; [done|].
  intros _. unfold spec_rate_limited.
  rewrite <- cleanup_recorded. unfold recorded.
  by destruct (cleanupOldEntries now m !! Deposit.wallet d).
Qed.

Lemma verifyDeposit_spec now d (m : ledger) :
  fst (verifyDeposit now d m) = spec_verify now d m.
Proof.
  unfold spec_verify.
  destruct (spec_structural now d) as [c|] eqn:E.
  - by rewrite (verifyDeposit_structural _ _ _ _ E).
  - rewrite (verifyDeposit_rate _ _ _ E); simpl.
    by destruct (spec_rate_limited now d m).
Qed.

(** The wallet's record after a call that reached the rate limiter. *)
Lemma verifyDeposit_recorded now d (m : ledger) :
  spec_structural now d = None ->
  recorded (snd (verifyDeposit now d m)) (Deposit.wallet d)
  = if spec_rate_limited now d m
    then List.filter (fresh now) (recorded m (Deposit.wallet d))
    else List.filter (fresh now) (recorded m (Deposit.wallet d)) ++ [now].
Proof.
  intros E. rewrite (verifyDeposit_rate _ _ _ E); simpl.
  destruct (spec_rate_limited now d m); simpl.
  - apply cleanup_recorded.
  - unfold recorded at 1. rewrite lookup_insert_eq; simpl.
    rewrite <- cleanup_recorded. unfold recorded.
    by destruct (cleanupOldEntries now m !! Deposit.wallet d).
Qed.

Lemma verifyDeposit_recorded_other now d (m : ledger) w :
  spec_structural now d = None -> w <> Deposit.wallet d ->
  recorded (snd (verifyDeposit now d m)) w
  = List.filter (fresh now) (recorded m w).
Proof.
  intros E Hw. rewrite (verifyDeposit_rate _ _ _ E); simpl.
  destruct (spec_rate_limited now d m); simpl.
  - apply cleanup_recorded.
  - unfold recorded at 1. rewrite lookup_insert_ne by done.
    apply cleanup_recorded.
Qed.

Lemma filter_all_fresh now l :
  Forall (fun ts => now - ts < RATE_LIMIT_WINDOW_MS) l ->
  List.filter (fresh now) l = l.
Proof.
  induction 1 as [|x r Hx _ IH]; simpl; [done|].
  unfold fresh at 1. apply Z.ltb_lt in Hx. by rewrite Hx, IH.
Qed.

Lemma filter_none_fresh now l :
  Forall (fun ts => RATE_LIMIT_WINDOW_MS <= now - ts) l ->
  List.filter (fresh now) l = [].
Proof.
  induction 1 as [|x r Hx _ IH]; simpl; [done|].
  unfold fresh at 1. apply Z.ltb_ge in Hx. by rewrite Hx, IH.
Qed.

Lemma filter_fresh_length now l :
  (length (List.filter (fresh now) l) <= length l)%nat.
Proof.
  induction l as [|x r IH]; simpl; [done|].
  destruct (fresh now x); simpl; lia.
Qed.

Lemma verifyAll_app calls1 calls2 (m : ledger) :
  verifyAll (calls1 ++ calls2) m =
  (fst (verifyAll calls1 m)
     ++ fst (verifyAll calls2 (snd (verifyAll calls1 m))),
   snd (verifyAll calls2 (snd (verifyAll calls1 m)))).
Proof.
  revert m. induction calls1 as [|[now d] rest IH]; intros m; simpl.
  - by destruct (verifyAll calls2 m).
  - destruct (verifyDeposit now d m) as [r m1]. rewrite IH.
    by destruct (verifyAll rest m1).
Qed.

(** While a wallet stays under its ceiling and its record is still
    within the window, every otherwise valid call is accepted and
    recorded. *)
Lemma verifyAll_accepts w lo calls (m : ledger) :
  Forall (otherwise_valid w) calls ->
  Forall (fun c => lo <= fst c < lo + RATE_LIMIT_WINDOW_MS) calls ->
  Forall (fun ts => lo <= ts) (recorded m w) ->
  (length (recorded m w) + length calls <= MAX_EVENTS_PER_WINDOW)%nat ->
  fst (verifyAll calls m) = replicate (length calls) accepted /\
  recorded (snd (verifyAll calls m)) w = recorded m w ++ map fst calls.
Proof.
  revert m. induction calls as [|[now d] rest IH]; intros m Hv Ht Hm Hn.
  - simpl. by rewrite app_nil_r.
  - apply Forall_cons in Hv as [[Hw Hs] Hv].
    apply Forall_cons in Ht as [Hnow Ht].
    simpl in Hw, Hs, Hnow, Hn. subst w.
    assert (Hlive : List.filter (fresh now) (recorded m (Deposit.wallet d))
                    = recorded m (Deposit.wallet d)).
    { apply filter_all_fresh. eapply Forall_impl; [exact Hm|].
      simpl. intros; lia. }
    pose proof (verifyDeposit_spec now d m) as Hr.
    pose proof (verifyDeposit_recorded now d m Hs) as Hrec.
    unfold spec_verify in Hr. rewrite Hs in Hr.
    assert (Hlim : spec_rate_limited now d m = false).
    { unfold spec_rate_limited. rewrite Hlive. apply Nat.leb_gt. lia. }
    rewrite Hlim, Hlive in *.
    simpl. destruct (verifyDeposit now d m) as [r m1]. simpl in Hr, Hrec.
    destruct (IH m1 Hv Ht) as [IHr IHm].
    { rewrite Hrec. apply Forall_app. split; [done|].
      constructor; [lia|constructor]. }
    { rewrite Hrec, length_app. simpl. lia. }
    destruct (verifyAll rest m1) as [rs m2]. simpl in *.
    split; [by rewrite Hr, IHr|].
    by rewrite IHm, Hrec, <- app_assoc.
Qed.

End VerifierFacts.

Section VerifierClaims.
Import Verifier.
Local Open Scope Z_scope.

(** C6: [verifyDeposit] applies its checks in the stated order and stops
    at the first failure, as [spec_verify] does: it rejects an amount
    that is at most 0 with a reason mentioning "amount", then an
    observed-at timestamp older than 24 hours with a reason mentioning
    "old", then a timestamp more than 60 seconds in the future, then a
    wallet shorter than 20 characters; only then comes the rate limit. *)
Theorem verifyDeposit_checks_in_order now d (m : ledger) :
  let r := fst (verifyDeposit now d m) in
  r = spec_verify now d m /\
  ((Deposit.amount d <= 0)%Q ->
   r = rejected "Amount must be greater than 0") /\
  mentions "amount" "Amount must be greater than 0" = true /\
  ((0 < Deposit.amount d)%Q ->
   Deposit.timestamp d < now - 24 * 60 * 60 * 1000 ->
   r = rejected "Deposit timestamp too old") /\
  mentions "old" "Deposit timestamp too old" = true /\
  ((0 < Deposit.amount d)%Q ->
   now - 24 * 60 * 60 * 1000 <= Deposit.timestamp d ->
   now + 60 * 1000 < Deposit.timestamp d ->
   r = rejected "Deposit timestamp in future") /\
  ((0 < Deposit.amount d)%Q ->
   now - 24 * 60 * 60 * 1000 <= Deposit.timestamp d <= now + 60 * 1000 ->
   (String.length (Deposit.wallet d) < 20)%nat ->
   r = rejected "Invalid wallet address").
Proof.
  intros r. subst r. rewrite verifyDeposit_spec.
  split; [done|].
  unfold spec_verify, spec_structural, spec_order; simpl.
  repeat split; try reflexivity.
  - intros Ha. apply Qle_bool_iff in Ha. by rewrite Ha.
  - intros Ha Ht.
    destruct (Qle_bool (Deposit.amount d) 0) eqn:E;
      [apply Qle_bool_iff in E; lra|].
    apply Z.ltb_lt in Ht. by rewrite Ht.
  - intros Ha Ht Hf.
    destruct (Qle_bool (Deposit.amount d) 0) eqn:E;
      [apply Qle_bool_iff in E; lra|].
    apply Z.ltb_ge in Ht. rewrite Ht.
    apply Z.ltb_lt in Hf. by rewrite Hf.
  - intros Ha [Ht Hf] Hw.
    destruct (Qle_bool (Deposit.amount d) 0) eqn:E;
      [apply Qle_bool_iff in E; lra|].
    apply Z.ltb_ge in Ht. rewrite Ht.
    apply Z.ltb_ge in Hf. rewrite Hf.
    apply Nat.ltb_lt in Hw. by rewrite Hw.
Qed.

Lemma verifyDeposit_checks_in_order_witness :
  fst (verifyDeposit 90000000 (Sample.deposit 0 0) ∅)
  = rejected "Amount must be greater than 0" /\
  fst (verifyDeposit 90000000 (Sample.deposit (21 # 2) 0) ∅)
  = rejected "Deposit timestamp too old".
Proof.
  pose proof (verifyDeposit_checks_in_order 90000000 (Sample.deposit 0 0) ∅)
    as (_ & H1 & _).
  pose proof (verifyDeposit_checks_in_order 90000000
                (Sample.deposit (21 # 2) 0) ∅) as (_ & _ & _ & H2 & _).
  split.
  - apply H1. simpl. unfold Qle; simpl; lia.
  - apply H2; simpl; [reflexivity|lia].
Defined.

(** C8, as stated, fails: a call rejected by a structural check returns
    before the cleanup.  After one accepted call at instant 0, a call
    with amount 0 at instant 100000 leaves the acceptance of instant 0
    on record, 100000 ms old. *)
Lemma verifyDeposit_early_reject_keeps_stale_entry :
  fst (verifyDeposit 100000 (Sample.deposit 0 100000) Sample.ledger_after_one)
  = rejected "Amount must be greater than 0" /\
  ~ pruned 100000
      (snd (verifyDeposit 100000 (Sample.deposit 0 100000)
              Sample.ledger_after_one)).
Proof.
  split; [reflexivity|].
  intros H. specialize (H Sample.wallet 0).
  assert (In 0 (recorded
                  (snd (verifyDeposit 100000 (Sample.deposit 0 100000)
                          Sample.ledger_after_one)) Sample.wallet)) as Hin.
  { vm_compute. by left. }
  specialize (H Hin). unfold RATE_LIMIT_WINDOW_MS in H. lia.
Qed.

(** C8, amended: after every invocation of [verifyDeposit] that passes
    the four structural checks (so reaches the rate-limit step, whether
    it is then accepted or rate-limited) the ledger holds no acceptance
    timestamp as old as the rate window; an invocation that fails a
    structural check leaves the ledger as it was. *)
Theorem verifyDeposit_prunes_at_rate_step now d (m : ledger) :
  match spec_structural now d with
  | None => pruned now (snd (verifyDeposit now d m))
  | Some _ => snd (verifyDeposit now d m) = m
  end.
Proof.
  destruct (spec_structural now d) as [c|] eqn:E.
  - by rewrite (verifyDeposit_structural _ _ _ _ E).
  - intros w ts.
    destruct (decide (w = Deposit.wallet d)) as [->|Hw].
    + rewrite (verifyDeposit_recorded _ _ _ E).
      destruct (spec_rate_limited now d m).
      * intros [_ F]%filter_In. unfold fresh in F. lia.
      * intros [[_ F]%filter_In|[<-|[]]]%in_app_or.
        -- unfold fresh in F. lia.
        -- unfold RATE_LIMIT_WINDOW_MS. lia.
    + rewrite (verifyDeposit_recorded_other _ _ _ _ E Hw).
      intros [_ F]%filter_In. unfold fresh in F. lia.
Qed.

Lemma verifyDeposit_prunes_at_rate_step_witness :
  pruned 100000
    (snd (verifyDeposit 100000 (Sample.deposit (21 # 2) 100000)
            Sample.ledger_after_one)).
Proof.
  exact (verifyDeposit_prunes_at_rate_step 100000
           (Sample.deposit (21 # 2) 100000) Sample.ledger_after_one).
Defined.

(** C7, amended: for one wallet and the ceiling of
    [MAX_EVENTS_PER_WINDOW] calls per window: when the wallet has no
    acceptance on record within the window, the first
    [MAX_EVENTS_PER_WINDOW] otherwise valid calls made inside one window
    are accepted, the next call inside that window fails with "Rate limit
    exceeded", and an otherwise valid call made once the window that began
    with the first call has elapsed is accepted again. *)
Theorem verifyDeposit_rate_limit w (m : ledger) first rest next later :
  length (first :: rest) = MAX_EVENTS_PER_WINDOW ->
  Forall (otherwise_valid w) (first :: rest ++ [next; later]) ->
  Forall (fun ts => RATE_LIMIT_WINDOW_MS <= fst first - ts) (recorded m w) ->
  Forall (fun c => fst first <= fst c < fst first + RATE_LIMIT_WINDOW_MS)
    (rest ++ [next]) ->
  fst first + RATE_LIMIT_WINDOW_MS <= fst later ->
  fst (verifyAll (first :: rest ++ [next; later]) m)
  = replicate MAX_EVENTS_PER_WINDOW accepted
      ++ [rejected "Rate limit exceeded"; accepted].
Proof.
  intros Hlen Hv Hold Hwin Hlater. rewrite <- Hlen.
  destruct first as [t1 d1]. simpl in Hlen, Hold, Hwin, Hlater.
  apply Forall_cons in Hv as [[Hw1 Hs1] Hv]. simpl in Hw1, Hs1.
  apply Forall_app in Hv as [Hvrest Hv].
  apply Forall_cons in Hv as [[Hwn Hsn] Hv].
  apply Forall_cons in Hv as [[Hwl Hsl] _].
  apply Forall_app in Hwin as [Hwrest Hwnext].
  apply Forall_cons in Hwnext as [Hwnext _].
  destruct next as [tn dn], later as [tl dl]. simpl in *.
  (* the first call *)
  pose proof (verifyDeposit_spec t1 d1 m) as Hr1.
  pose proof (verifyDeposit_recorded t1 d1 m Hs1) as Hm1.
  unfold spec_verify in Hr1. rewrite Hs1 in Hr1.
  assert (Hlim1 : spec_rate_limited t1 d1 m = false).
  { unfold spec_rate_limited. rewrite Hw1, (filter_none_fresh _ _ Hold).
    reflexivity. }
  rewrite Hlim1, Hw1, (filter_none_fresh _ _ Hold) in *.
  destruct (verifyDeposit t1 d1 m) as [r1 m1]. simpl in Hr1, Hm1.
  (* the rest of the burst *)
  destruct (verifyAll_accepts w t1 rest m1 Hvrest Hwrest) as [Hr2 Hm2].
  { rewrite Hm1. constructor; [lia|constructor]. }
  { rewrite Hm1. simpl. lia. }
  rewrite verifyAll_app.
  destruct (verifyAll rest m1) as [rs m2]. simpl in Hr2, Hm2. simpl.
  rewrite Hm1 in Hm2. simpl in Hm2.
  (* the call over the ceiling *)
  assert (Hlive : List.filter (fresh tn) (recorded m2 w) = recorded m2 w).
  { apply filter_all_fresh. rewrite Hm2.
    constructor; [lia|]. apply Forall_map.
    eapply Forall_impl; [exact Hwrest|]. simpl. intros; lia. }
  pose proof (verifyDeposit_spec tn dn m2) as Hr3.
  pose proof (verifyDeposit_recorded tn dn m2 Hsn) as Hm3.
  unfold spec_verify in Hr3. rewrite Hsn in Hr3.
  assert (Hlim3 : spec_rate_limited tn dn m2 = true).
  { unfold spec_rate_limited. rewrite Hwn, Hlive, Hm2.
    apply Nat.leb_le. cbn [length]. rewrite length_map. lia. }
  rewrite Hlim3, Hwn, Hlive in *.
  destruct (verifyDeposit tn dn m2) as [r3 m3]. simpl in Hr3, Hm3.
  (* the call after the window *)
  pose proof (verifyDeposit_spec tl dl m3) as Hr4.
  unfold spec_verify in Hr4. rewrite Hsl in Hr4.
  assert (Hlim4 : spec_rate_limited tl dl m3 = false).
  { unfold spec_rate_limited. rewrite Hwl, Hm3, Hm2. cbn [List.filter].
    assert (fresh tl t1 = false) as -> by (apply Z.ltb_ge; lia).
    apply Nat.leb_gt.
    pose proof (filter_fresh_length tl (map fst rest)) as Hle.
    rewrite length_map in Hle. lia. }
  rewrite Hlim4 in Hr4.
  destruct (verifyDeposit tl dl m3) as [r4 m4]. simpl in Hr4. simpl.
  by rewrite Hr1, Hr2, Hr3, Hr4.
Qed.

Lemma verifyDeposit_rate_limit_witness :
  fst (verifyAll (Sample.call 1000 :: Sample.burst
                    ++ [Sample.call 2000; Sample.call 61000]) ∅)
  = replicate MAX_EVENTS_PER_WINDOW accepted
      ++ [rejected "Rate limit exceeded"; accepted].
Proof.
  apply (verifyDeposit_rate_limit Sample.wallet ∅ (Sample.call 1000)
           Sample.burst (Sample.call 2000) (Sample.call 61000)).
  - reflexivity.
  - repeat constructor.
  - constructor.
  - repeat constructor; simpl; unfold RATE_LIMIT_WINDOW_MS; lia.
  - simpl. unfold RATE_LIMIT_WINDOW_MS. lia.
Defined.

End VerifierClaims.

(** ** The minter *)

Section MinterFacts.
Import Minter.

(** The minting capability touches nothing but the record of its own
    calls. *)
Lemma delegate_frame this now d tier uri w o w1 :
  delegate this now d tier uri w = (o, w1) ->
  db w1 = db w /\ rateLimitMap w1 = rateLimitMap w /\
  emitted w1 = emitted w.
Proof.
  unfold delegate, mintOnEthereum, mintOnSolana, mintMock, throw,
    record_mint, mbind, mret, Js_bind, Js_ret.
  destruct (Config.mode (config this)); simpl.
  - by intros [= <- <-].
  - destruct (ethereumContract this) as [contract|]; simpl;
      [|by intros [= <- <-]].
    destruct (contract _ _) as [receipt|e]; simpl;
      [|by intros [= <- <-]].
    destruct (logs receipt) as [|topics ?]; simpl; [by intros [= <- <-]|].
    destruct (topics !! 3%nat); simpl; by intros [= <- <-].
  - by intros [= <- <-].
Qed.

Lemma mintAttestation_processed_flag this now uuid d tier uri w :
  Deposit.processed d = true ->
  mintAttestation this now uuid d tier uri w
  = (Return (failure "Deposit already processed"), w).
Proof.
  intros Hp. unfold mintAttestation, try_catch. by rewrite Hp.
Qed.

Lemma find_mark_processed i l :
  List.find (fun r => String.eqb (Deposit.id r) i)
    (map (fun r => if String.eqb (Deposit.id r) i
                   then Deposit.set_processed r else r) l)
  = Deposit.set_processed
      <$> List.find (fun r => String.eqb (Deposit.id r) i) l.
Proof.
  induction l as [|r l IH]; simpl; [done|].
  destruct (String.eqb (Deposit.id r) i) eqn:E; simpl; rewrite E; done.
Qed.

(** How a call on an unprocessed deposit ends, step by step. *)
Lemma mintAttestation_unprocessed this now uuid d tier uri w :
  Deposit.processed d = false ->
  mintAttestation this now uuid d tier uri w =
  match delegate this now d tier uri w with
  | (Throw e, w1) => (Return (failure (describe e)), w1)
  | (Return token, w1) =>
      match Db.insert_attestation
              {| Attestation.id := uuid;
                 Attestation.deposit_id := Deposit.id d;
                 Attestation.wallet := Deposit.wallet d;
                 Attestation.tier := tier;
                 Attestation.token_id := Some token;
                 Attestation.minted_at := now;
                 Attestation.metadata :=
                   {| Metadata.depositId := Deposit.id d;
                      Metadata.tier := tier;
                      Metadata.timestamp := now;
                      Metadata.metadataUri := uri |} |} (db w1) with
      | Throw e => (Return (failure (describe e)), w1)
      | Return db2 =>
          (Return {| success := true; attestationId := Some uuid;
                     tokenId := Some token; error := None |},
           set_db (Db.mark_processed (Deposit.id d) db2) w1)
      end
  end.
Proof.
  intros Hp. unfold mintAttestation, try_catch. rewrite Hp.
  unfold mbind, Js_bind at 1.
  destruct (delegate this now d tier uri w) as [[token|e] w1]; [|done].
  unfold Js_bind, db_run, db_exec, mret, Js_ret.
  by destruct (Db.insert_attestation _ (db w1)).
Qed.

End MinterFacts.

Section MinterClaims.
Import Minter.

(** C3: for every deposit whose processed flag is true,
    [mintAttestation] returns a failure whose error says the deposit was
    already processed, calls no minting capability, and leaves the
    deposits and attestations (the whole process state) unchanged. *)
Theorem mintAttestation_processed this now uuid d tier uri w :
  Deposit.processed d = true ->
  mintAttestation this now uuid d tier uri w
  = (Return {| success := false; attestationId := None; tokenId := None;
               error := Some "Deposit already processed" |}, w).
Proof.
  intros Hp. unfold mintAttestation, try_catch. by rewrite Hp.
Qed.

Lemma mintAttestation_processed_witness :
  mintAttestation Sample.mockMinter 9 "att-2"
    (Deposit.set_processed Sample.stored) "Tier A" None
    Sample.world_after_mint
  = (Return (failure "Deposit already processed"), Sample.world_after_mint).
Proof.
  apply (mintAttestation_processed Sample.mockMinter 9 "att-2"
           (Deposit.set_processed Sample.stored) "Tier A" None
           Sample.world_after_mint).
  reflexivity.
Defined.

(** C4: for every unprocessed deposit, if the delegated minting
    capability fails (throws [e]), [mintAttestation] returns a failure
    carrying the message of [e], and the database is as before: no
    attestation is persisted and no processed flag is changed. *)
Theorem mintAttestation_capability_failure
    this now uuid d tier uri w e w1 :
  Deposit.processed d = false ->
  delegate this now d tier uri w = (Throw e, w1) ->
  mintAttestation this now uuid d tier uri w
  = (Return {| success := false; attestationId := None; tokenId := None;
               error := Some match e with
                             | JsError message => message
                             | NotAnError => "Unknown error"
                             end |}, w1) /\
  db w1 = db w.
Proof.
  intros Hp Hd. rewrite (mintAttestation_unprocessed _ _ _ _ _ _ _ Hp), Hd.
  split; [done|]. by destruct (delegate_frame _ _ _ _ _ _ _ _ Hd).
Qed.

Lemma mintAttestation_capability_failure_witness :
  fst (mintAttestation Sample.failingMinter 5 "att-1" Sample.stored
         "Tier A" None Sample.world_with_deposit)
  = Return (failure "network error") /\
  db (snd (mintAttestation Sample.failingMinter 5 "att-1" Sample.stored
             "Tier A" None Sample.world_with_deposit))
  = db Sample.world_with_deposit.
Proof.
  destruct (mintAttestation_capability_failure Sample.failingMinter 5
              "att-1" Sample.stored "Tier A" None Sample.world_with_deposit
              (JsError "network error")
              (snd (delegate Sample.failingMinter 5 Sample.stored "Tier A"
                      None Sample.world_with_deposit)))
    as [H1 H2]; [reflexivity|reflexivity|].
  rewrite H1. split; [reflexivity|exact H2].
Defined.

(** C5, as stated, fails: [mintAttestation] tests the [processed] field
    of the object it is given and flips the flag in the database only.
    Called a second time on the same deposit object, it is not rejected:
    it mints again and a second attestation for the deposit is
    persisted. *)
Lemma mintAttestation_same_object_mints_again :
  Deposit.processed Sample.stored = false /\
  fst (mintAttestation Sample.mockMinter 5 "att-1" Sample.stored "Tier A"
         None Sample.world_with_deposit)
  = Return {| success := true; attestationId := Some "att-1";
              tokenId := Some "mock-5"; error := None |} /\
  fst (mintAttestation Sample.mockMinter 9 "att-2" Sample.stored "Tier A"
         None Sample.world_after_mint)
  = Return {| success := true; attestationId := Some "att-2";
              tokenId := Some "mock-9"; error := None |} /\
  map Attestation.deposit_id
    (Db.attestations
       (db (snd (mintAttestation Sample.mockMinter 9 "att-2" Sample.stored
                   "Tier A" None Sample.world_after_mint))))
  = [Deposit.id Sample.stored; Deposit.id Sample.stored].
Proof. repeat split; vm_compute; reflexivity. Qed.

(** C5, amended: for every unprocessed deposit held in the [deposits]
    table on which [mintAttestation] returns success, exactly one new
    attestation has been persisted, it references the deposit's
    identifier, and the processed flag of the stored deposit has been set
    to true; a second [mintAttestation] call on the deposit as read back
    from the table is then rejected, with nothing minted or written.
    (The deposit object passed to the first call is not modified.) *)
Theorem mintAttestation_success this now uuid d tier uri w r w' :
  Deposit.processed d = false ->
  Db.deposit_by_id (Deposit.id d) (db w) = Some d ->
  mintAttestation this now uuid d tier uri w = (Return r, w') ->
  success r = true ->
  (exists a,
     Db.attestations (db w') = Db.attestations (db w) ++ [a] /\
     Attestation.deposit_id a = Deposit.id d /\
     attestationId r = Some (Attestation.id a)) /\
  Db.deposit_by_id (Deposit.id d) (db w')
    = Some (Deposit.set_processed d) /\
  forall now2 uuid2 tier2 uri2,
    mintAttestation this now2 uuid2 (Deposit.set_processed d) tier2 uri2 w'
    = (Return (failure "Deposit already processed"), w').
Proof.
  intros Hp Hstored Hm Hs.
  rewrite (mintAttestation_unprocessed _ _ _ _ _ _ _ Hp) in Hm.
  destruct (delegate this now d tier uri w) as [[token|e] w1] eqn:Hd;
    [|by injection Hm as <- <-].
  destruct (delegate_frame _ _ _ _ _ _ _ _ Hd) as (Hdb & _ & _).
  unfold Db.insert_attestation in Hm.
  destruct (Db.has_attestation _ _); [by injection Hm as <- <-|].
  destruct (_ && _); [by injection Hm as <- <-|].
  injection Hm as <- <-. simpl. rewrite Hdb.
  split; [by eexists|]. split.
  - unfold Db.deposit_by_id in *. simpl.
    by rewrite find_mark_processed, Hstored.
  - intros. by apply mintAttestation_processed_flag.
Qed.

Lemma mintAttestation_success_witness :
  Db.deposit_by_id (Deposit.id Sample.stored) (db Sample.world_after_mint)
  = Some (Deposit.set_processed Sample.stored) /\
  mintAttestation Sample.mockMinter 9 "att-2"
    (Deposit.set_processed Sample.stored) "Tier A" None
    Sample.world_after_mint
  = (Return (failure "Deposit already processed"), Sample.world_after_mint).
Proof.
  destruct (mintAttestation_success Sample.mockMinter 5 "att-1"
              Sample.stored "Tier A" None Sample.world_with_deposit
              {| success := true; attestationId := Some "att-1";
                 tokenId := Some "mock-5"; error := None |}
              Sample.world_after_mint)
    as (_ & Hflag & Hagain);
    [reflexivity|reflexivity|reflexivity|reflexivity|].
  split; [exact Hflag|apply Hagain].
Defined.

End MinterClaims.

(** ** The deposit event handler *)

Section PipelineFacts.
Import Pipeline.

(** The row just inserted is among the rows selected by its own
    transaction reference, so the duplicate check finds it. *)
Lemma checkDuplicate_self d fk rows atts :
  Verifier.checkDuplicate d
    (Db.deposits_by_txid (Deposit.txid d)
       {| Db.foreign_keys := fk; Db.deposits := rows ++ [d];
          Db.attestations := atts |}) = true.
Proof.
  unfold Verifier.checkDuplicate, Db.deposits_by_txid; simpl.
  apply existsb_exists. exists d. split.
  - apply filter_In. split; [|apply String.eqb_refl].
    apply in_or_app. right. by left.
  - by rewrite String.eqb_refl.
Qed.

End PipelineFacts.

Section PipelineClaims.
Import Pipeline.

(** C1 is not met by the handler: the deposit is inserted into the
    [deposits] table before the duplicate check selects the rows with its
    transaction reference, so the check always finds the deposit itself.
    For every event that passes the Verifier and whose identifier is not
    yet in the table, the handler broadcasts "Duplicate deposit" after
    "deposit:new", and nothing else: the "verified" result is not
    broadcast and nothing is minted. *)
Theorem on_deposit_reports_duplicate minter now uuid ev w :
  Db.has_deposit (DepositEvent.id ev) (db w) = false ->
  fst (Verifier.verifyDeposit now (dbDeposit now ev) (rateLimitMap w))
  = Verifier.accepted ->
  emitted (snd (on_deposit minter now uuid ev w))
  = emitted w
      ++ [deposit_new ev;
          deposit_verified (DepositEvent.id ev) false
            (Some "Duplicate deposit")] /\
  mintCalls (snd (on_deposit minter now uuid ev w)) = mintCalls w.
Proof.
  intros Hid Hv.
  unfold on_deposit, try_catch, mbind, Js_bind, db_run, Db.insert_deposit.
  simpl. rewrite Hid. simpl. unfold verify. simpl.
  destruct (Verifier.verifyDeposit now (dbDeposit now ev) (rateLimitMap w))
    as [r m]. simpl in Hv. subst r. simpl.
  change (DepositEvent.txid ev) with (Deposit.txid (dbDeposit now ev)).
  rewrite checkDuplicate_self. simpl.
  by rewrite <- app_assoc.
Qed.

Lemma on_deposit_reports_duplicate_witness :
  emitted (snd (on_deposit Sample.mockMinter 1700000000000 "att-1"
                  (Sample.mock1 1700000000000) Sample.fresh_world))
  = [deposit_new (Sample.mock1 1700000000000);
     deposit_verified "mock-1" false (Some "Duplicate deposit")].
Proof.
  destruct (on_deposit_reports_duplicate Sample.mockMinter 1700000000000
              "att-1" (Sample.mock1 1700000000000) Sample.fresh_world)
    as [H _]; [reflexivity|reflexivity|].
  exact H.
Defined.

End PipelineClaims.

(** * Further properties *)

(** ** The tier classifier *)

Section PrivacyMore.
Import Privacy.
Local Open Scope Q_scope.

Lemma find_ext_in {A} (p q : A -> bool) l :
  (forall x, In x l -> p x = q x) -> List.find p l = List.find q l.
Proof.
  induction l as [|h r IH]; intros H; simpl; [done|].
  rewrite (H h) by (by left).
  destruct (q h); [done|]. apply IH. intros x Hx. apply H. by right.
Qed.

Lemma find_filter_head {A} (q : A -> bool) l :
  List.find q l = head (List.filter q l).
Proof.
  induction l as [|h r IH]; simpl; [done|]. by destruct (q h).
Qed.

(** The tier found for an amount is also the first tier of the sorted
    table holding its threshold. *)
Lemma find_reached_first amount l t :
  List.find (fun u => Qle_bool (threshold u) amount) l = Some t ->
  List.find (fun u => Qeq_bool (threshold u) (threshold t)) l = Some t.
Proof.
  induction l as [|h r IH]; simpl; [done|].
  destruct (Qle_bool (threshold h) amount) eqn:E.
  - intros [= <-].
    assert (Qeq_bool (threshold h) (threshold h) = true) as ->; [|done].
    apply Qeq_bool_iff. reflexivity.
  - intros Hf.
    pose proof (find_some _ _ Hf) as [_ Ht]. simpl in Ht.
    destruct (Qeq_bool (threshold h) (threshold t)) eqn:Eq; [|by apply IH].
    apply Qeq_bool_iff in Eq. apply Qle_bool_iff in Ht.
    assert (threshold h <= amount) as Hle by lra.
    apply Qle_bool_iff in Hle. congruence.
Qed.

(** X1: The bucket is the greatest threshold the amount reaches: when some
    tier's threshold is at most the amount, the bucketed amount is at most
    the amount, no reached threshold exceeds it, and the tier name and the
    bucketed amount are those of one tier of the table. *)
Theorem getPrivacyTier_greatest amount tiers u :
  In u tiers -> threshold u <= amount ->
  threshold u <= Privacy.amount (getPrivacyTier amount tiers) /\
  Privacy.amount (getPrivacyTier amount tiers) <= amount /\
  exists t, In t tiers /\
    name t = tier (getPrivacyTier amount tiers) /\
    threshold t = Privacy.amount (getPrivacyTier amount tiers).
Proof.
  intros Hu Hle. rewrite getPrivacyTier_winner.
  destruct (winner amount tiers) as [t|] eqn:W.
  - destruct (winner_greatest _ _ _ W) as (Hin & Hta & Hmax). simpl.
    split; [by apply Hmax|]. split; [done|]. by exists t.
  - by destruct (winner_none _ _ W u Hu).
Qed.

Lemma getPrivacyTier_greatest_witness :
  (10 <= Privacy.amount (getPrivacyTier 25 Sample.tiers)) /\
  Privacy.amount (getPrivacyTier 25 Sample.tiers) <= 25.
Proof.
  destruct (getPrivacyTier_greatest 25 Sample.tiers
              {| name := "Tier B"; threshold := 10 |}) as (H1 & H2 & _).
  - right. left. reflexivity.
  - unfold Qle; simpl; lia.
  - split; [exact H1|exact H2].
Defined.

(** X2: With non-negative thresholds the bucketed amount grows with the
    amount: a larger deposit never lands in a lower bucket. *)
Theorem anonymizeAmount_monotone a1 a2 tiers :
  Forall (fun t => 0 <= threshold t) tiers ->
  a1 <= a2 ->
  anonymizeAmount a1 tiers <= anonymizeAmount a2 tiers.
Proof.
  intros Hpos Hle. unfold anonymizeAmount.
  rewrite !getPrivacyTier_winner. rewrite Forall_forall in Hpos.
  destruct (winner a1 tiers) as [t1|] eqn:W1; simpl.
  - destruct (winner_greatest _ _ _ W1) as (I1 & L1 & _).
    destruct (winner a2 tiers) as [t2|] eqn:W2; simpl.
    + destruct (winner_greatest _ _ _ W2) as (_ & _ & M2).
      apply M2; [done|lra].
    + destruct (winner_none _ _ W2 t1 I1). lra.
  - destruct (winner a2 tiers) as [t2|] eqn:W2; simpl; [|lra].
    destruct (winner_greatest _ _ _ W2) as (I2 & _ & _).
    apply Hpos. by apply list_elem_of_In.
Qed.

Lemma anonymizeAmount_monotone_witness :
  anonymizeAmount 5 Sample.tiers <= anonymizeAmount 150 Sample.tiers.
Proof.
  apply (anonymizeAmount_monotone 5 150 Sample.tiers).
  - repeat constructor; unfold Qle; simpl; lia.
  - unfold Qle; simpl; lia.
Defined.

(** X3: Amounts between the same two thresholds cannot be told apart: when no
    threshold of the table lies above [a1] and at most [a2], both amounts
    get the same tier name and the same bucketed amount. *)
Theorem getPrivacyTier_same_bucket a1 a2 tiers :
  a1 <= a2 ->
  Forall (fun t => ~ (a1 < threshold t /\ threshold t <= a2)) tiers ->
  tier (getPrivacyTier a1 tiers) = tier (getPrivacyTier a2 tiers) /\
  Privacy.amount (getPrivacyTier a1 tiers)
  = Privacy.amount (getPrivacyTier a2 tiers).
Proof.
  intros Hle Hgap. rewrite !getPrivacyTier_winner.
  assert (winner a1 tiers = winner a2 tiers) as ->;
    [|by destruct (winner a2 tiers)].
  unfold winner. apply find_ext_in. intros t Ht.
  assert (In t tiers) as Hin.
  { apply list_elem_of_In. rewrite <- (Array_sort_perm byThreshold tiers).
    by apply list_elem_of_In. }
  rewrite Forall_forall in Hgap.
  specialize (Hgap t (proj2 (list_elem_of_In _ _) Hin)).
  destruct (Qle_bool (threshold t) a1) eqn:E1,
           (Qle_bool (threshold t) a2) eqn:E2; try done.
  - apply Qle_bool_iff in E1.
    assert (threshold t <= a2) as H2 by lra.
    apply Qle_bool_iff in H2. congruence.
  - apply Qle_bool_iff in E2. destruct Hgap. split; [|done].
    apply Qnot_le_lt. intros H1. apply Qle_bool_iff in H1. congruence.
Qed.

Lemma getPrivacyTier_same_bucket_witness :
  tier (getPrivacyTier 12 Sample.tiers) = tier (getPrivacyTier 99 Sample.tiers)
  /\ Privacy.amount (getPrivacyTier 12 Sample.tiers)
     = Privacy.amount (getPrivacyTier 99 Sample.tiers).
Proof.
  apply (getPrivacyTier_same_bucket 12 99 Sample.tiers).
  - unfold Qle; simpl; lia.
  - repeat constructor; unfold Qle, Qlt; simpl; lia.
Defined.

(** X4: Among tiers sharing the winning threshold, the one that comes first in
    the table as given supplies the tier name. *)
Theorem getPrivacyTier_first_of_ties amount tiers u :
  In u tiers -> threshold u <= amount ->
  exists t,
    List.find (fun x => Qeq_bool (threshold x)
                          (Privacy.amount (getPrivacyTier amount tiers)))
      tiers = Some t /\
    tier (getPrivacyTier amount tiers) = name t.
Proof.
  intros Hu Hle. rewrite getPrivacyTier_winner.
  destruct (winner amount tiers) as [t|] eqn:W;
    [|by destruct (winner_none _ _ W u Hu)].
  simpl. exists t. split; [|done].
  unfold winner in W. apply find_reached_first in W.
  by rewrite find_filter_head, Array_sort_stable, <- find_filter_head in W.
Qed.

Lemma getPrivacyTier_first_of_ties_witness :
  exists t,
    List.find (fun x => Qeq_bool (threshold x)
                          (Privacy.amount (getPrivacyTier 10 Sample.tiedBA)))
      Sample.tiedBA = Some t /\
    tier (getPrivacyTier 10 Sample.tiedBA) = name t.
Proof.
  apply (getPrivacyTier_first_of_ties 10 Sample.tiedBA
           {| name := "Tier A"; threshold := 10 |}).
  - right. left. reflexivity.
  - unfold Qle; simpl; lia.
Defined.

End PrivacyMore.

(** ** The verifier *)

Section VerifierMore.
Import Verifier.
Local Open Scope Z_scope.

Lemma filter_fresh_compose now1 now2 l :
  now1 <= now2 ->
  List.filter (fresh now2) (List.filter (fresh now1) l)
  = List.filter (fresh now2) l.
Proof.
  intros Hle. induction l as [|x r IH]; simpl; [done|].
  destruct (fresh now1 x) eqn:E1; simpl; rewrite IH; [done|].
  assert (fresh now2 x = false) as ->; [|done].
  unfold fresh in *. apply Z.ltb_ge in E1. apply Z.ltb_ge. lia.
Qed.

(** X6: A deposit is accepted exactly when its amount is positive, its
    timestamp lies from 24 hours before to 60 seconds after the current
    instant (both ends included), its wallet has at least 20 characters
    and the wallet has fewer than [MAX_EVENTS_PER_WINDOW] acceptances less
    than a minute old on record. *)
Theorem verifyDeposit_accepts_iff now d (m : ledger) :
  valid (fst (verifyDeposit now d m)) = true <->
  (0 < Deposit.amount d)%Q /\
  now - 86400000 <= Deposit.timestamp d <= now + 60000 /\
  (20 <= String.length (Deposit.wallet d))%nat /\
  (length (List.filter (fresh now) (recorded m (Deposit.wallet d)))
   < MAX_EVENTS_PER_WINDOW)%nat.
Proof.
  rewrite verifyDeposit_spec.
  unfold spec_verify, spec_structural, spec_order, spec_rate_limited.
  cbn [List.find spec_violates].
  change (24 * 60 * 60 * 1000) with 86400000. change (60 * 1000) with 60000.
  destruct (Qle_bool (Deposit.amount d) 0) eqn:Ea.
  { apply Qle_bool_iff in Ea. simpl. split; [done|]. intros (H & _). lra. }
  assert (0 < Deposit.amount d)%Q as Hpos.
  { apply Qnot_le_lt. intros H. apply Qle_bool_iff in H. congruence. }
  destruct (Deposit.timestamp d <? now - 86400000) eqn:Eo.
  { apply Z.ltb_lt in Eo. simpl. split; [done|]. intros (_ & H & _). lia. }
  apply Z.ltb_ge in Eo.
  destruct (now + 60000 <? Deposit.timestamp d) eqn:Ef.
  { apply Z.ltb_lt in Ef. simpl. split; [done|]. intros (_ & H & _). lia. }
  apply Z.ltb_ge in Ef.
  destruct (String.length (Deposit.wallet d) <? 20)%nat eqn:Ew.
  { apply Nat.ltb_lt in Ew. simpl. split; [done|]. intros (_ & _ & H & _).
    lia. }
  apply Nat.ltb_ge in Ew.
  destruct (MAX_EVENTS_PER_WINDOW <=? _)%nat eqn:El.
  { apply Nat.leb_le in El. simpl. split; [done|]. intros (_ & _ & _ & H).
    lia. }
  apply Nat.leb_gt in El. simpl. split; [|done]. intros _.
  repeat split; try done; lia.
Qed.

Lemma verifyDeposit_accepts_iff_witness :
  valid (fst (verifyDeposit 86400000 (Sample.deposit (21 # 2) 0) ∅)) = true.
Proof.
  apply (verifyDeposit_accepts_iff 86400000 (Sample.deposit (21 # 2) 0) ∅).
  split; [unfold Qlt; simpl; lia|].
  split; [simpl; lia|]. split; [simpl; lia|].
  vm_compute. lia.
Defined.

(** X7: Cleaning at a later instant makes an earlier cleaning redundant; in
    particular cleaning twice at one instant is cleaning once. *)
Theorem cleanupOldEntries_compose now1 now2 (m : ledger) :
  now1 <= now2 ->
  cleanupOldEntries now2 (cleanupOldEntries now1 m) = cleanupOldEntries now2 m.
Proof.
  intros Hle. apply map_eq. intros w. unfold cleanupOldEntries.
  rewrite !lookup_omap. destruct (m !! w) as [e|]; simpl; [|done].
  rewrite <- (filter_fresh_compose now1 now2 (timestamps e) Hle).
  by destruct (List.filter (fresh now1) (timestamps e)) as [|x k].
Qed.

Lemma cleanupOldEntries_compose_witness :
  cleanupOldEntries 100000 (cleanupOldEntries 500 Sample.ledger_after_one)
  = cleanupOldEntries 100000 Sample.ledger_after_one.
Proof.
  apply (cleanupOldEntries_compose 500 100000 Sample.ledger_after_one). lia.
Defined.

(** The cleanup keeps exactly the instants less than a window old and
    drops every wallet left without any. *)
Theorem cleanupOldEntries_lookup now (m : ledger) w :
  recorded (cleanupOldEntries now m) w
  = List.filter (fresh now) (recorded m w) /\
  (cleanupOldEntries now m !! w = None <->
   List.filter (fresh now) (recorded m w) = []).
Proof.
  split; [apply cleanup_recorded|].
  unfold recorded, cleanupOldEntries. rewrite lookup_omap.
  destruct (m !! w) as [e|]; simpl; [|done].
  by destruct (List.filter (fresh now) (timestamps e)).
Qed.

(** X8: Only an acceptance is recorded: a rejected call adds no instant to any
    wallet, an accepted call adds the current instant to the record of
    the deposit's wallet, after the instants still within the window. *)
Theorem verifyDeposit_records_only_acceptances now d (m : ledger) :
  (valid (fst (verifyDeposit now d m)) = false ->
   forall w ts, In ts (recorded (snd (verifyDeposit now d m)) w) ->
                In ts (recorded m w)) /\
  (valid (fst (verifyDeposit now d m)) = true ->
   recorded (snd (verifyDeposit now d m)) (Deposit.wallet d)
   = List.filter (fresh now) (recorded m (Deposit.wallet d)) ++ [now]).
Proof.
  destruct (spec_structural now d) as [c|] eqn:E.
  - rewrite (verifyDeposit_structural _ _ _ _ E). simpl. by split.
  - pose proof (verifyDeposit_recorded now d m E) as Hrec.
    pose proof (fun w => verifyDeposit_recorded_other now d m w E) as Hoth.
    pose proof (verifyDeposit_spec now d m) as Hr.
    unfold spec_verify in Hr. rewrite E in Hr. rewrite Hr.
    destruct (spec_rate_limited now d m); simpl; split; try done.
    intros _ w ts.
    destruct (decide (w = Deposit.wallet d)) as [->|Hw].
    + rewrite Hrec. by intros [? _]%filter_In.
    + rewrite (Hoth w Hw). by intros [? _]%filter_In.
Qed.

Lemma verifyDeposit_records_only_acceptances_witness :
  recorded (snd (verifyDeposit 500 (Sample.deposit (21 # 2) 500)
                   Sample.ledger_after_one)) Sample.wallet
  = List.filter (fresh 500) (recorded Sample.ledger_after_one Sample.wallet)
    ++ [500].
Proof.
  apply (verifyDeposit_records_only_acceptances 500
           (Sample.deposit (21 # 2) 500) Sample.ledger_after_one).
  reflexivity.
Defined.

(** X9: The rate limit is per wallet: an earlier call for another wallet,
    whatever its outcome, does not change the verdict on a deposit. *)
Theorem verifyDeposit_other_wallet now' d' now d (m : ledger) :
  Deposit.wallet d' <> Deposit.wallet d ->
  now' <= now ->
  fst (verifyDeposit now d (snd (verifyDeposit now' d' m)))
  = fst (verifyDeposit now d m).
Proof.
  intros Hw Hle. rewrite !verifyDeposit_spec. unfold spec_verify.
  destruct (spec_structural now d); [done|].
  assert (spec_rate_limited now d (snd (verifyDeposit now' d' m))
          = spec_rate_limited now d m) as ->; [|done].
  unfold spec_rate_limited.
  destruct (spec_structural now' d') as [c|] eqn:E.
  - by rewrite (verifyDeposit_structural _ _ _ _ E).
  - rewrite (verifyDeposit_recorded_other now' d' m _ E) by congruence.
    by rewrite filter_fresh_compose.
Qed.

Lemma verifyDeposit_other_wallet_witness :
  fst (verifyDeposit 500 (Sample.deposit (21 # 2) 500)
         (snd (verifyDeposit 400 (Scenario.other_deposit 400)
                 Sample.ledger_after_one)))
  = fst (verifyDeposit 500 (Sample.deposit (21 # 2) 500)
           Sample.ledger_after_one).
Proof.
  apply (verifyDeposit_other_wallet 400 (Scenario.other_deposit 400) 500
           (Sample.deposit (21 # 2) 500) Sample.ledger_after_one).
  - discriminate.
  - lia.
Defined.

End VerifierMore.

(** ** Shapes the rate-limit map keeps *)

Section LedgerInvariants.
Import Verifier.
Local Open Scope Z_scope.

Lemma cleanup_well_formed now (m : ledger) :
  Ledger.well_formed m -> Ledger.well_formed (cleanupOldEntries now m).
Proof.
  intros Hwf w e. unfold cleanupOldEntries. rewrite lookup_omap.
  destruct (m !! w) as [e0|] eqn:E; simpl; [|done].
  destruct (Hwf w e0 E) as [Hw _].
  destruct (List.filter (fresh now) (timestamps e0)) as [|x k] eqn:F;
    [done|].
  by intros [= <-].
Qed.

Lemma verifyDeposit_well_formed now d (m : ledger) :
  Ledger.well_formed m -> Ledger.well_formed (snd (verifyDeposit now d m)).
Proof.
  intros Hwf.
  destruct (spec_structural now d) as [c|] eqn:E.
  - by rewrite (verifyDeposit_structural _ _ _ _ E).
  - rewrite (verifyDeposit_rate _ _ _ E). cbv zeta.
    pose proof (cleanup_well_formed now m Hwf) as Hc.
    destruct (spec_rate_limited now d m); simpl; [done|].
    intros w e.
    destruct (decide (w = Deposit.wallet d)) as [->|Hw].
    + rewrite lookup_insert_eq. intros [= <-]. simpl. split.
      * destruct (cleanupOldEntries now m !! Deposit.wallet d) as [e0|] eqn:L;
          [|done].
        by destruct (Hc _ _ L).
      * by destruct (timestamps _).
    + rewrite lookup_insert_ne by done. apply Hc.
Qed.

Lemma verifyDeposit_bounded now d (m : ledger) :
  Ledger.bounded m -> Ledger.bounded (snd (verifyDeposit now d m)).
Proof.
  intros Hb w.
  destruct (spec_structural now d) as [c|] eqn:E.
  - rewrite (verifyDeposit_structural _ _ _ _ E). apply Hb.
  - pose proof (filter_fresh_length now (recorded m w)) as Hf.
    specialize (Hb w).
    destruct (decide (w = Deposit.wallet d)) as [->|Hw].
    + rewrite (verifyDeposit_recorded _ _ _ E).
      destruct (spec_rate_limited now d m) eqn:L; [lia|].
      unfold spec_rate_limited in L. apply Nat.leb_gt in L.
      rewrite length_app. simpl. lia.
    + rewrite (verifyDeposit_recorded_other _ _ _ _ E Hw). lia.
Qed.

(** X10: Whatever calls a fresh verifier has served, every entry of its map is
    filed under its own wallet and holds at least one instant: wallets
    whose record has emptied are removed when the map is cleaned. *)
Theorem verifyAll_well_formed calls :
  Ledger.well_formed (snd (verifyAll calls ∅)).
Proof.
  assert (forall (m : ledger), Ledger.well_formed m ->
            Ledger.well_formed (snd (verifyAll calls m))) as H.
  { induction calls as [|[now d] rest IH]; intros m Hwf; simpl; [done|].
    pose proof (verifyDeposit_well_formed now d m Hwf) as H1.
    destruct (verifyDeposit now d m) as [r m1]. simpl in H1.
    specialize (IH m1 H1). by destruct (verifyAll rest m1). }
  apply H. by intros w e.
Qed.

Lemma verifyAll_well_formed_witness :
  Ledger.well_formed
    (snd (verifyAll (Sample.call 1000 :: Sample.burst) ∅)).
Proof.
  exact (verifyAll_well_formed (Sample.call 1000 :: Sample.burst)).
Defined.

(** X11: Whatever calls a fresh verifier has served, no wallet has more than
    [MAX_EVENTS_PER_WINDOW] instants on record. *)
Theorem verifyAll_bounded calls w :
  (length (recorded (snd (verifyAll calls ∅)) w)
   <= MAX_EVENTS_PER_WINDOW)%nat.
Proof.
  assert (forall (m : ledger), Ledger.bounded m ->
            Ledger.bounded (snd (verifyAll calls m))) as H.
  { induction calls as [|[now d] rest IH]; intros m Hb; simpl; [done|].
    pose proof (verifyDeposit_bounded now d m Hb) as H1.
    destruct (verifyDeposit now d m) as [r m1]. simpl in H1.
    specialize (IH m1 H1). by destruct (verifyAll rest m1). }
  apply H. intros w'. unfold recorded. rewrite lookup_empty. simpl. lia.
Qed.

Lemma verifyAll_bounded_witness :
  (length (recorded
             (snd (verifyAll (Sample.call 1000 :: Sample.burst
                                ++ [Sample.call 2000]) ∅)) Sample.wallet)
   <= MAX_EVENTS_PER_WINDOW)%nat.
Proof.
  exact (verifyAll_bounded
           (Sample.call 1000 :: Sample.burst ++ [Sample.call 2000])
           Sample.wallet).
Defined.

End LedgerInvariants.

(** ** The minter *)

Section MinterMore.
Import Minter.

Lemma find_app_fresh {A} (p : A -> bool) l a :
  existsb p l = false ->
  List.find p (l ++ [a]) = if p a then Some a else None.
Proof.
  induction l as [|h r IH]; simpl; [done|].
  intros [Hh Hr]%orb_false_iff. rewrite Hh. by apply IH.
Qed.

Lemma mark_processed_rows i rows :
  Forall2 (fun r r' => r' = r \/ r' = Deposit.set_processed r) rows
    (map (fun r => if String.eqb (Deposit.id r) i
                   then Deposit.set_processed r else r) rows).
Proof.
  induction rows as [|r rows IH]; simpl; constructor; [|done].
  destruct (String.eqb (Deposit.id r) i); auto.
Qed.

Lemma Forall2_same_rows (rows : list Deposit.t) :
  Forall2 (fun r r' => r' = r \/ r' = Deposit.set_processed r) rows rows.
Proof. induction rows; constructor; auto. Qed.

(** X12: [mintAttestation] never throws, and its result is well shaped: a
    success carries the attestation id and the token id and no error, a
    failure carries an error message and no id. *)
Theorem mintAttestation_returns this now uuid d tier uri w :
  exists r,
    fst (mintAttestation this now uuid d tier uri w) = Return r /\
    if success r
    then attestationId r = Some uuid /\ is_Some (tokenId r) /\ error r = None
    else attestationId r = None /\ tokenId r = None /\ is_Some (error r).
Proof.
  destruct (Deposit.processed d) eqn:Hp.
  - rewrite (mintAttestation_processed_flag _ _ _ _ _ _ _ Hp).
    eexists. split; [done|]. simpl. eauto.
  - rewrite (mintAttestation_unprocessed _ _ _ _ _ _ _ Hp).
    destruct (delegate this now d tier uri w) as [[token|e] w1].
    + destruct (Db.insert_attestation _ (db w1)); eexists;
        (split; [done|]); simpl; eauto.
    + eexists. split; [done|]. simpl. eauto.
Qed.

Lemma mintAttestation_returns_witness :
  exists r,
    fst (mintAttestation Sample.failingMinter 5 "att-1" Sample.stored
           "Tier A" None Sample.world_with_deposit) = Return r /\
    if success r
    then attestationId r = Some "att-1" /\ is_Some (tokenId r)
         /\ error r = None
    else attestationId r = None /\ tokenId r = None /\ is_Some (error r).
Proof.
  exact (mintAttestation_returns Sample.failingMinter 5 "att-1" Sample.stored
           "Tier A" None Sample.world_with_deposit).
Defined.

(** X13: Whatever its outcome, [mintAttestation] leaves the rate-limit map and
    the broadcasts alone, keeps every deposit row in place (a row is
    either untouched or has its processed flag set, never cleared), and
    only appends to the attestations. *)
Theorem mintAttestation_frame this now uuid d tier uri w :
  rateLimitMap (snd (mintAttestation this now uuid d tier uri w))
  = rateLimitMap w /\
  emitted (snd (mintAttestation this now uuid d tier uri w)) = emitted w /\
  Forall2 (fun r r' => r' = r \/ r' = Deposit.set_processed r)
    (Db.deposits (db w))
    (Db.deposits (db (snd (mintAttestation this now uuid d tier uri w)))) /\
  exists new,
    Db.attestations (db (snd (mintAttestation this now uuid d tier uri w)))
    = Db.attestations (db w) ++ new.
Proof.
  destruct (Deposit.processed d) eqn:Hp.
  - rewrite (mintAttestation_processed_flag _ _ _ _ _ _ _ Hp). simpl.
    repeat split; try done; [apply Forall2_same_rows|].
    exists []. by rewrite app_nil_r.
  - rewrite (mintAttestation_unprocessed _ _ _ _ _ _ _ Hp).
    destruct (delegate this now d tier uri w) as [[token|e] w1] eqn:Hd;
      destruct (delegate_frame _ _ _ _ _ _ _ _ Hd) as (Hdb & Hm & He).
    + unfold Db.insert_attestation.
      destruct (Db.has_attestation _ _); simpl;
        [rewrite Hdb; repeat split; try done;
         [apply Forall2_same_rows|exists []; by rewrite app_nil_r]|].
      destruct (_ && _); simpl; rewrite Hdb;
        repeat split; try done.
      * apply Forall2_same_rows.
      * exists []. by rewrite app_nil_r.
      * apply mark_processed_rows.
      * by eexists.
    + simpl. rewrite Hdb. repeat split; try done;
        [apply Forall2_same_rows|exists []; by rewrite app_nil_r].
Qed.

Lemma mintAttestation_frame_witness :
  emitted (snd (mintAttestation Sample.mockMinter 5 "att-1" Sample.stored
                  "Tier A" None Sample.world_with_deposit))
  = emitted Sample.world_with_deposit.
Proof.
  exact (proj1 (proj2 (mintAttestation_frame Sample.mockMinter 5 "att-1"
                         Sample.stored "Tier A" None
                         Sample.world_with_deposit))).
Defined.

(** X14: On Ethereum without [initialize()] having set the contract, a mint of
    an unprocessed deposit fails with "Ethereum contract not initialized"
    and nothing at all has happened: no contract call, no write. *)
Theorem mintAttestation_uninitialized this now uuid d tier uri w :
  Config.mode (config this) = ethereum ->
  ethereumContract this = None ->
  Deposit.processed d = false ->
  mintAttestation this now uuid d tier uri w
  = (Return (failure "Ethereum contract not initialized"), w).
Proof.
  intros Hm Hc Hp. rewrite (mintAttestation_unprocessed _ _ _ _ _ _ _ Hp).
  unfold delegate, mintOnEthereum. by rewrite Hm, Hc.
Qed.

Lemma mintAttestation_uninitialized_witness :
  mintAttestation Scenario.uninitialized 5 "att-1" Sample.stored "Tier A"
    None Sample.world_with_deposit
  = (Return (failure "Ethereum contract not initialized"),
     Sample.world_with_deposit).
Proof.
  by apply (mintAttestation_uninitialized Scenario.uninitialized 5 "att-1"
              Sample.stored "Tier A" None Sample.world_with_deposit).
Defined.

(** X15: In mock mode minting cannot fail on the chain side: for an unprocessed
    deposit that is in the deposits table and an unused attestation id,
    [mintAttestation] succeeds with the token id "mock-" followed by the
    current time. *)
Theorem mintAttestation_mock_succeeds this now uuid d tier uri w :
  Config.mode (config this) = mock ->
  Deposit.processed d = false ->
  Db.has_deposit (Deposit.id d) (db w) = true ->
  Db.has_attestation uuid (db w) = false ->
  fst (mintAttestation this now uuid d tier uri w)
  = Return {| success := true; attestationId := Some uuid;
              tokenId := Some ("mock-" +:+ pretty now); error := None |}.
Proof.
  intros Hm Hp Hd Ha. rewrite (mintAttestation_unprocessed _ _ _ _ _ _ _ Hp).
  unfold delegate, mintMock, record_mint, mbind, mret, Js_bind, Js_ret.
  rewrite Hm. simpl. unfold Db.insert_attestation. simpl.
  rewrite Ha, Hd. by rewrite andb_false_r.
Qed.

Lemma mintAttestation_mock_succeeds_witness :
  fst (mintAttestation Sample.mockMinter 5 "att-1" Sample.stored "Tier A"
         None Sample.world_with_deposit)
  = Return {| success := true; attestationId := Some "att-1";
              tokenId := Some ("mock-" +:+ pretty 5%Z); error := None |}.
Proof.
  by apply (mintAttestation_mock_succeeds Sample.mockMinter 5 "att-1"
              Sample.stored "Tier A" None Sample.world_with_deposit).
Defined.

(** A capability that returned a token has been used exactly once. *)
Lemma delegate_records this now d tier uri w token w1 :
  delegate this now d tier uri w = (Return token, w1) ->
  exists call,
    mintCalls w1 = mintCalls w ++ [call] /\ to call = Deposit.wallet d.
Proof.
  unfold delegate, mintOnEthereum, mintOnSolana, mintMock, throw,
    record_mint, mbind, mret, Js_bind, Js_ret.
  destruct (Config.mode (config this)); simpl.
  - intros [= <- <-]. by eexists.
  - destruct (ethereumContract this) as [contract|]; simpl; [|done].
    destruct (contract _ _) as [receipt|e]; simpl; [|done].
    destruct (logs receipt) as [|topics ?]; simpl;
      [intros [= <- <-]; by eexists|].
    destruct (topics !! 3%nat); simpl; [|done].
    intros [= <- <-]. by eexists.
  - intros [= <- <-]. by eexists.
Qed.

(** X16: In every mode, when the minting capability has returned a token
    but the attestation id is already taken, the insert fails after the
    capability has been used: the call returns the database's error, the
    tables are unchanged (the deposit stays unprocessed), and the one
    capability call for the deposit's wallet has taken place all the
    same. *)
Theorem mintAttestation_id_taken this now uuid d tier uri w token w1 :
  Deposit.processed d = false ->
  delegate this now d tier uri w = (Return token, w1) ->
  Db.has_attestation uuid (db w) = true ->
  mintAttestation this now uuid d tier uri w
  = (Return (failure "UNIQUE constraint failed: attestations.id"), w1) /\
  db w1 = db w /\
  exists call,
    mintCalls w1 = mintCalls w ++ [call] /\ to call = Deposit.wallet d.
Proof.
  intros Hp Hd Ha. rewrite (mintAttestation_unprocessed _ _ _ _ _ _ _ Hp), Hd.
  destruct (delegate_frame _ _ _ _ _ _ _ _ Hd) as (Hdb & _ & _).
  unfold Db.insert_attestation. simpl. rewrite Hdb, Ha.
  split; [done|]. split; [done|].
  by apply (delegate_records _ _ _ _ _ _ _ _ Hd).
Qed.

Lemma mintAttestation_id_taken_witness :
  fst (mintAttestation Sample.mockMinter 9 "att-1" Sample.stored "Tier A"
         None Sample.world_after_mint)
  = Return (failure "UNIQUE constraint failed: attestations.id").
Proof.
  destruct (mintAttestation_id_taken Sample.mockMinter 9 "att-1"
              Sample.stored "Tier A" None Sample.world_after_mint
              ("mock-" +:+ pretty 9%Z)
              (snd (delegate Sample.mockMinter 9 Sample.stored "Tier A"
                      None Sample.world_after_mint))
              eq_refl eq_refl eq_refl) as [H _].
  by rewrite H.
Defined.

(** X17: On Ethereum, when the receipt's first log has fewer than four topics,
    reading the token id fails after the transaction has gone through:
    [mintAttestation] returns a failure and writes nothing to the tables,
    although the contract has been called. *)
Theorem mintAttestation_short_topics
    this now uuid d tier w contract receipt topics rest :
  Config.mode (config this) = ethereum ->
  ethereumContract this = Some contract ->
  Deposit.processed d = false ->
  contract (Deposit.wallet d)
    ("https://scotopia.io/attestations/" +:+ Deposit.wallet d
       +:+ "/" +:+ tier) = Return receipt ->
  logs receipt = topics :: rest ->
  (length topics <= 3)%nat ->
  (exists msg,
     fst (mintAttestation this now uuid d tier None w)
     = Return (failure msg)) /\
  db (snd (mintAttestation this now uuid d tier None w)) = db w /\
  mintCalls (snd (mintAttestation this now uuid d tier None w))
  = mintCalls w
      ++ [{| via := ethereum; to := Deposit.wallet d;
             what := "https://scotopia.io/attestations/" +:+ Deposit.wallet d
                       +:+ "/" +:+ tier |}].
Proof.
  intros Hm Hc Hp Hcall Hlogs Hlen.
  rewrite (mintAttestation_unprocessed _ _ _ _ _ _ _ Hp).
  unfold delegate, mintOnEthereum, record_mint, throw, mbind, mret,
    Js_bind, Js_ret.
  rewrite Hm, Hc. simpl. rewrite Hcall, Hlogs.
  assert (topics !! 3%nat = None) as ->
    by (apply lookup_ge_None; lia).
  simpl. split; [by eexists|done].
Qed.

Lemma mintAttestation_short_topics_witness :
  db (snd (mintAttestation Scenario.short_topics 5 "att-1" Sample.stored
             "Tier A" None Sample.world_with_deposit))
  = db Sample.world_with_deposit.
Proof.
  exact (proj1 (proj2
    (mintAttestation_short_topics Scenario.short_topics 5 "att-1"
       Sample.stored "Tier A" Sample.world_with_deposit
       (fun _ _ => Return {| logs := [["t0"; "t1"; "t2"]];
                             hash := "0xhash" |})
       {| logs := [["t0"; "t1"; "t2"]]; hash := "0xhash" |}
       ["t0"; "t1"; "t2"] []
       eq_refl eq_refl eq_refl eq_refl eq_refl (le_n 3)))).
Defined.

(** X18: Insert and look up: after a successful [mintAttestation],
    [getAttestationById] of the returned id gives the attestation of this
    deposit (its id, wallet, tier and token id), and [getAttestations] of
    the deposit's wallet lists it. *)
Theorem mintAttestation_then_lookup this now uuid d tier uri w r w' :
  mintAttestation this now uuid d tier uri w = (Return r, w') ->
  success r = true ->
  exists a,
    attestationId r = Some (Attestation.id a) /\
    Queries.getAttestationById (Attestation.id a) (db w') = Some a /\
    Attestation.deposit_id a = Deposit.id d /\
    Attestation.wallet a = Deposit.wallet d /\
    Attestation.tier a = tier /\
    Attestation.token_id a = tokenId r /\
    In a (Queries.getAttestations (Deposit.wallet d) (db w')).
Proof.
  intros Hm Hs.
  destruct (Deposit.processed d) eqn:Hp.
  { rewrite (mintAttestation_processed_flag _ _ _ _ _ _ _ Hp) in Hm.
    by injection Hm as <- <-. }
  rewrite (mintAttestation_unprocessed _ _ _ _ _ _ _ Hp) in Hm.
  destruct (delegate this now d tier uri w) as [[token|e] w1] eqn:Hd;
    [|by injection Hm as <- <-].
  unfold Db.insert_attestation in Hm.
  destruct (Db.has_attestation _ _) eqn:Ha; [by injection Hm as <- <-|].
  destruct (_ && _); [by injection Hm as <- <-|].
  injection Hm as <- <-.
  exists {| Attestation.id := uuid;
            Attestation.deposit_id := Deposit.id d;
            Attestation.wallet := Deposit.wallet d;
            Attestation.tier := tier;
            Attestation.token_id := Some token;
            Attestation.minted_at := now;
            Attestation.metadata :=
              {| Metadata.depositId := Deposit.id d;
                 Metadata.tier := tier;
                 Metadata.timestamp := now;
                 Metadata.metadataUri := uri |} |}.
  split; [done|].
  unfold Queries.getAttestationById, Queries.getAttestations. simpl.
  split.
  { unfold Db.has_attestation in Ha. simpl in Ha.
    rewrite (find_app_fresh _ _ _ Ha). simpl. by rewrite String.eqb_refl. }
  repeat split; try done.
  apply filter_In. split; [|simpl; apply String.eqb_refl].
  apply in_or_app. right. by left.
Qed.

Lemma mintAttestation_then_lookup_witness :
  exists a,
    Queries.getAttestationById "att-1" (db Sample.world_after_mint) = Some a
    /\ Attestation.deposit_id a = "test-1".
Proof.
  destruct (mintAttestation_then_lookup Sample.mockMinter 5 "att-1"
              Sample.stored "Tier A" None Sample.world_with_deposit
              {| success := true; attestationId := Some "att-1";
                 tokenId := Some "mock-5"; error := None |}
              Sample.world_after_mint)
    as (a & Hid & Hget & Hdep & _); [reflexivity|reflexivity|].
  exists a. injection Hid as Hid. rewrite <- Hid in Hget. by split.
Defined.

End MinterMore.

(** ** The deposit event handler, other paths *)

Section PipelineMore.
Import Pipeline.

(** X19: An event whose id is already in the deposits table is dropped without
    a trace: the insert fails on the primary key, the failure is caught,
    and nothing is stored, verified, recorded or broadcast. *)
Theorem on_deposit_known_id_dropped minter now uuid ev w :
  Db.has_deposit (DepositEvent.id ev) (db w) = true ->
  on_deposit minter now uuid ev w = (Return tt, w).
Proof.
  intros Hid.
  unfold on_deposit, try_catch, mbind, Js_bind, db_run, Db.insert_deposit.
  simpl. by rewrite Hid.
Qed.

Lemma on_deposit_known_id_dropped_witness :
  on_deposit Sample.mockMinter 1700000099000 "att-2"
    (Sample.mock1 1700000099000) Scenario.world_after_mock1
  = (Return tt, Scenario.world_after_mock1).
Proof.
  by apply (on_deposit_known_id_dropped Sample.mockMinter 1700000099000
              "att-2" (Sample.mock1 1700000099000)
              Scenario.world_after_mock1).
Defined.

(** X20: An event with a new id that the verifier rejects is stored all the
    same, as an unprocessed deposit; the handler broadcasts "deposit:new"
    and then the rejection with the verifier's reason, and mints
    nothing. *)
Theorem on_deposit_rejected minter now uuid ev w :
  Db.has_deposit (DepositEvent.id ev) (db w) = false ->
  Verifier.valid
    (fst (Verifier.verifyDeposit now (dbDeposit now ev) (rateLimitMap w)))
  = false ->
  Db.deposits (db (snd (on_deposit minter now uuid ev w)))
  = Db.deposits (db w) ++ [dbDeposit now ev] /\
  emitted (snd (on_deposit minter now uuid ev w))
  = emitted w
      ++ [deposit_new ev;
          deposit_verified (DepositEvent.id ev) false
            (Verifier.reason
               (fst (Verifier.verifyDeposit now (dbDeposit now ev)
                       (rateLimitMap w))))] /\
  Db.attestations (db (snd (on_deposit minter now uuid ev w)))
  = Db.attestations (db w) /\
  mintCalls (snd (on_deposit minter now uuid ev w)) = mintCalls w.
Proof.
  intros Hid Hv.
  unfold on_deposit, try_catch, mbind, Js_bind, db_run, Db.insert_deposit.
  simpl. rewrite Hid. simpl. unfold verify. simpl.
  destruct (Verifier.verifyDeposit now (dbDeposit now ev) (rateLimitMap w))
    as [r m]. simpl in Hv. rewrite Hv. simpl.
  by rewrite <- app_assoc.
Qed.

Lemma on_deposit_rejected_witness :
  emitted (snd (on_deposit Sample.mockMinter 1700000000000 "att-1"
                  (Scenario.worthless 1700000000000) Sample.fresh_world))
  = [deposit_new (Scenario.worthless 1700000000000);
     deposit_verified "mock-0" false (Some "Amount must be greater than 0")].
Proof.
  destruct (on_deposit_rejected Sample.mockMinter 1700000000000 "att-1"
              (Scenario.worthless 1700000000000) Sample.fresh_world)
    as (_ & H & _); [reflexivity|reflexivity|].
  exact H.
Defined.

End PipelineMore.

(** ** The administrative route *)

Section ApiMore.
Import Api.

Lemma deposit_by_id_id i d row :
  Db.deposit_by_id i d = Some row -> Deposit.id row = i.
Proof.
  unfold Db.deposit_by_id. intros H.
  apply find_some in H as [_ H]. by apply String.eqb_eq.
Qed.

(** What a 200 answer of the handler means for the state. *)
Lemma mint_handler_ok minter now uuid req w resp w' :
  mint_handler minter now uuid req w = (Return resp, w') ->
  status resp = 200 ->
  exists deposit token,
    falsy (address req) = false /\ falsy (depositId req) = false /\
    Db.deposit_by_id (default "" (depositId req)) (db w) = Some deposit /\
    Deposit.processed deposit = false /\
    let tier :=
      Privacy.tier (Privacy.getPrivacyTier (Deposit.amount deposit)
                      (Config.tiers (Minter.config minter))) in
    let a :=
      {| Attestation.id := uuid;
         Attestation.deposit_id := Deposit.id deposit;
         Attestation.wallet := Deposit.wallet deposit;
         Attestation.tier := tier;
         Attestation.token_id := Some token;
         Attestation.minted_at := now;
         Attestation.metadata :=
           {| Metadata.depositId := Deposit.id deposit;
              Metadata.tier := tier;
              Metadata.timestamp := now;
              Metadata.metadataUri := None |} |} in
    resp = {| status := 200;
              body := minted_json true (Some uuid) (Some token) |} /\
    db w' = Db.mark_processed (Deposit.id deposit)
              {| Db.foreign_keys := Db.foreign_keys (db w);
                 Db.deposits := Db.deposits (db w);
                 Db.attestations := Db.attestations (db w) ++ [a] |} /\
    emitted w' = emitted w
                   ++ [attestation_minted (default "" (depositId req))
                         (default "" (address req)) tier (Some token)].
Proof.
  unfold mint_handler, try_catch, mbind, Js_bind, db_query.
  destruct (falsy (address req)) eqn:Fa; simpl;
    [by intros [= <- <-]|].
  destruct (falsy (depositId req)) eqn:Fd; simpl;
    [by intros [= <- <-]|].
  destruct (Db.deposit_by_id _ (db w)) as [deposit|] eqn:Hd; simpl;
    [|by intros [= <- <-]].
  destruct (Deposit.processed deposit) eqn:Hp; simpl;
    [by intros [= <- <-]|].
  rewrite (mintAttestation_unprocessed _ _ _ _ _ _ _ Hp).
  destruct (Minter.delegate _ _ _ _ _ w) as [[token|e] w1] eqn:Hdel;
    [|by intros [= <- <-]].
  destruct (delegate_frame _ _ _ _ _ _ _ _ Hdel) as (Hdb & _ & Hem).
  unfold Db.insert_attestation.
  destruct (Db.has_attestation _ _); simpl; [by intros [= <- <-]|].
  destruct (_ && _); simpl; [by intros [= <- <-]|].
  intros [= <- <-] _. exists deposit, token.
  repeat split; try done; simpl; by rewrite ?Hdb, ?Hem.
Qed.

Lemma mintAttestation_total this now uuid d tier uri w :
  exists r w1,
    Minter.mintAttestation this now uuid d tier uri w = (Return r, w1).
Proof.
  destruct (Deposit.processed d) eqn:Hp.
  - rewrite (mintAttestation_processed_flag _ _ _ _ _ _ _ Hp). eauto.
  - rewrite (mintAttestation_unprocessed _ _ _ _ _ _ _ Hp).
    destruct (Minter.delegate this now d tier uri w) as [[token|e] w1];
      [|eauto].
    destruct (Db.insert_attestation _ (db w1)); eauto.
Qed.

(** X22: The route never throws and answers 200, 400, 401, 404 or 500; unless
    the answer is 200 or 500 (a mint was attempted), the process state is
    exactly as before. *)
Theorem post_mint_refusals key minter now uuid req w :
  exists resp,
    fst (post_mint key minter now uuid req w) = Return resp /\
    In (status resp) [200; 400; 401; 404; 500]%nat /\
    (status resp <> 200%nat -> status resp <> 500%nat ->
     snd (post_mint key minter now uuid req w) = w).
Proof.
  unfold post_mint, requireAdmin.
  assert (exists resp,
            fst ((mret {| status := 401;
                          body := error_json (Some "Unauthorized") |}
                  : Js Response) w) = Return resp /\
            In (status resp) [200; 400; 401; 404; 500]%nat /\
            (status resp <> 200%nat -> status resp <> 500%nat ->
             snd ((mret {| status := 401;
                           body := error_json (Some "Unauthorized") |}
                   : Js Response) w) = w)) as H401.
  { eexists. split; [reflexivity|]. simpl. split; [auto|done]. }
  destruct (apiKey req) as [k|]; [|apply H401].
  destruct (String.eqb k key); [|apply H401].
  unfold mint_handler, try_catch, mbind, Js_bind, db_query.
  destruct (falsy (address req) || falsy (depositId req)); simpl.
  { eexists. split; [reflexivity|]. simpl. split; [auto|done]. }
  destruct (Db.deposit_by_id _ (db w)) as [deposit|]; simpl.
  2: { eexists. split; [reflexivity|]. simpl. split; [auto 6|done]. }
  destruct (Deposit.processed deposit) eqn:Hp; simpl.
  { eexists. split; [reflexivity|]. simpl. split; [auto|done]. }
  destruct (mintAttestation_total minter now uuid deposit
              (Privacy.tier
                 (Privacy.getPrivacyTier (Deposit.amount deposit)
                    (Config.tiers (Minter.config minter)))) None w)
    as (r & w1 & ->).
  destruct (Minter.success r); simpl; eexists;
    (split; [reflexivity|]); simpl; (split; [auto 8|done]).
Qed.

Lemma post_mint_refusals_witness :
  exists resp,
    fst (post_mint "secret" Sample.mockMinter 5 "att-1"
           {| apiKey := Some "guess"; address := Some "0xRecipient";
              depositId := Some "test-1" |} Sample.world_with_deposit)
    = Return resp /\
    In (status resp) [200; 400; 401; 404; 500]%nat /\
    (status resp <> 200%nat -> status resp <> 500%nat ->
     snd (post_mint "secret" Sample.mockMinter 5 "att-1"
            {| apiKey := Some "guess"; address := Some "0xRecipient";
               depositId := Some "test-1" |} Sample.world_with_deposit)
     = Sample.world_with_deposit).
Proof.
  exact (post_mint_refusals "secret" Sample.mockMinter 5 "att-1"
           {| apiKey := Some "guess"; address := Some "0xRecipient";
              depositId := Some "test-1" |} Sample.world_with_deposit).
Defined.

Lemma post_mint_ok_authorized key minter now uuid req w resp w' :
  post_mint key minter now uuid req w = (Return resp, w') ->
  status resp = 200%nat ->
  mint_handler minter now uuid req w = (Return resp, w').
Proof.
  unfold post_mint, requireAdmin.
  destruct (apiKey req) as [k|]; [|by intros [= <- <-]].
  destruct (String.eqb k key); [done|by intros [= <- <-]].
Qed.

(** X24: A 200 answer means: the deposit named in the request was in the table
    and unprocessed; one attestation was added, for the wallet and with the
    tier of the stored deposit (the tier its stored amount classifies to);
    one "attestation:minted" broadcast was sent, carrying the address and
    deposit id of the request together with that tier and token id; and
    the answer carries the new attestation id and token id. *)
Theorem post_mint_ok key minter now uuid req w resp w' :
  post_mint key minter now uuid req w = (Return resp, w') ->
  status resp = 200%nat ->
  exists deposit a,
    Db.deposit_by_id (default "" (depositId req)) (db w) = Some deposit /\
    Deposit.processed deposit = false /\
    Db.attestations (db w') = Db.attestations (db w) ++ [a] /\
    Attestation.deposit_id a = default "" (depositId req) /\
    Attestation.wallet a = Deposit.wallet deposit /\
    Attestation.tier a
    = Privacy.tier (Privacy.getPrivacyTier (Deposit.amount deposit)
                      (Config.tiers (Minter.config minter))) /\
    emitted w'
    = emitted w
        ++ [attestation_minted (default "" (depositId req))
              (default "" (address req)) (Attestation.tier a)
              (Attestation.token_id a)] /\
    body resp
    = minted_json true (Some (Attestation.id a)) (Attestation.token_id a).
Proof.
  intros Hpost Hok.
  apply post_mint_ok_authorized in Hpost; [|done].
  destruct (mint_handler_ok _ _ _ _ _ _ _ Hpost Hok)
    as (deposit & token & _ & _ & Hrow & Hp & Hresp & Hdb & Hem).
  eexists deposit, _. split; [done|]. split; [done|].
  split; [by rewrite Hdb|].
  split; [simpl; by apply deposit_by_id_id in Hrow|].
  split; [done|]. split; [done|]. split; [exact Hem|].
  by rewrite Hresp.
Qed.

Lemma post_mint_ok_witness :
  exists deposit a,
    Db.deposit_by_id "test-1" (db Sample.world_with_deposit) = Some deposit
    /\ Attestation.wallet a = Deposit.wallet deposit
    /\ emitted Scenario.world_after_request
       = [attestation_minted "test-1" "0xRecipient" (Attestation.tier a)
            (Attestation.token_id a)].
Proof.
  destruct (post_mint_ok "secret" Sample.mockMinter 5 "att-1"
              Scenario.admin_request Sample.world_with_deposit
              {| status := 200;
                 body := minted_json true (Some "att-1") (Some "mock-5") |}
              Scenario.world_after_request eq_refl eq_refl)
    as (deposit & a & H1 & _ & _ & _ & H2 & _ & H3 & _).
  exists deposit, a. split; [exact H1|]. split; [exact H2|exact H3].
Defined.

End ApiMore.

(** ** The deposit event handler, every path *)

Section PipelineEffect.
Import Pipeline.

(** X21: As the handler stands, it never throws, and its whole effect on the
    database is to insert the deposit row when the id is new: on no path
    does it write an attestation, set a processed flag or use a minting
    capability. *)
Theorem on_deposit_effect minter now uuid ev w :
  fst (on_deposit minter now uuid ev w) = Return tt /\
  db (snd (on_deposit minter now uuid ev w))
  = (if Db.has_deposit (DepositEvent.id ev) (db w) then db w
     else {| Db.foreign_keys := Db.foreign_keys (db w);
             Db.deposits := Db.deposits (db w) ++ [dbDeposit now ev];
             Db.attestations := Db.attestations (db w) |}) /\
  mintCalls (snd (on_deposit minter now uuid ev w)) = mintCalls w.
Proof.
  unfold on_deposit, try_catch, mbind, Js_bind, db_run, Db.insert_deposit.
  simpl.
  destruct (Db.has_deposit (DepositEvent.id ev) (db w)); simpl; [done|].
  unfold verify. simpl.
  destruct (Verifier.verifyDeposit now (dbDeposit now ev) (rateLimitMap w))
    as [r m]. simpl.
  destruct (Verifier.valid r); simpl; [|done].
  change (DepositEvent.txid ev) with (Deposit.txid (dbDeposit now ev)).
  by rewrite checkDuplicate_self.
Qed.

Lemma on_deposit_effect_witness :
  Db.attestations
    (db (snd (on_deposit Sample.mockMinter 1700000000000 "att-1"
                (Sample.mock1 1700000000000) Sample.fresh_world)))
  = [].
Proof.
  destruct (on_deposit_effect Sample.mockMinter 1700000000000 "att-1"
              (Sample.mock1 1700000000000) Sample.fresh_world)
    as (_ & H & _).
  by rewrite H.
Defined.

End PipelineEffect.

(** ** The rate limit when the wallet already has acceptances on record *)

Section RateLimitCorrection.
Import Verifier.
Local Open Scope Z_scope.

(** C7, as stated, fails when the wallet starts with acceptances still
    inside the window.  After ten accepted calls at instant 0, ten
    otherwise valid calls are made within 20 ms (nine at 59990, one at
    60010) and an eleventh at 60020, well within one window of the first:
    the first nine are rate-limited by the earlier acceptances, those
    leave the window at 60000, and the tenth and the eleventh call are
    both accepted. *)
Lemma verifyDeposit_rate_limit_saturated_start :
  length (Scenario.crowded_first :: Scenario.crowded_rest)
  = MAX_EVENTS_PER_WINDOW /\
  Forall (otherwise_valid Sample.wallet)
    (Scenario.crowded_first :: Scenario.crowded_rest
       ++ [Scenario.crowded_next; Scenario.crowded_later]) /\
  Forall (fun c => fst Scenario.crowded_first <= fst c
                   < fst Scenario.crowded_first + RATE_LIMIT_WINDOW_MS)
    (Scenario.crowded_rest ++ [Scenario.crowded_next]) /\
  fst Scenario.crowded_first + RATE_LIMIT_WINDOW_MS
  <= fst Scenario.crowded_later /\
  fst (verifyAll (replicate 10 (Sample.call 0)) ∅)
  = replicate 10 accepted /\
  fst (verifyAll
         (Scenario.crowded_first :: Scenario.crowded_rest
            ++ [Scenario.crowded_next; Scenario.crowded_later])
         Scenario.saturated)
  = replicate 9 (rejected "Rate limit exceeded")
      ++ [accepted; accepted; accepted].
Proof.
  split; [reflexivity|].
  split; [repeat constructor|].
  split; [repeat constructor; simpl; unfold RATE_LIMIT_WINDOW_MS; lia|].
  split; [simpl; unfold RATE_LIMIT_WINDOW_MS; lia|].
  split; vm_compute; reflexivity.
Qed.

End RateLimitCorrection.

(** ** Requests after a deposit has been minted *)

Section ProcessFacts.
Import Api.












End ProcessFacts.
